(** * Client scripts of saas_package_management: the site-creation progress
      flow of the Customer Site form and the domain suggestion of the
      Customer Request form.

    The scripts are JavaScript run by the Frappe desk.  The embedding keeps
    the shape of the source: JavaScript values with their truthiness and
    string conversion, strings as sequences of UTF-16 code units, the
    progress dialog as a small record that [update_progress] mutates, and
    the framework calls a function makes as the list of effects it emits,
    in program order. *)

From Stdlib Require Import ZArith NArith List String Ascii Bool Lia.
From Stdlib Require Import DecimalString.
From Stdlib Require Decimal DecimalZ.
From Equations Require Import Equations.
Import ListNotations.

Local Open Scope list_scope.

(** ** JavaScript strings and values *)

(** A JavaScript string is a sequence of UTF-16 code units. *)
Definition jsstring := list N.

(** A source literal, whose characters are all ASCII. *)
Definition lit (s : string) : jsstring :=
  map N_of_ascii (list_ascii_of_string s).

(** The values a field of a record or of a received message can hold.
    Numbers are the integers: progress is an integer percentage. *)
Inductive JsVal :=
| JUndefined
| JNull
| JBool (b : bool)
| JNum (n : Z)
| JStr (s : jsstring).

Definition jsstring_eqb (s t : jsstring) : bool :=
  if list_eq_dec N.eq_dec s t then true else false.

(** ToBoolean: the test made by [if (v)], [!v], [a || b] and [a && b]. *)
Definition truthy (v : JsVal) : bool :=
  match v with
  | JUndefined | JNull => false
  | JBool b => b
  | JNum n => negb (n =? 0)%Z
  | JStr s => match s with [] => false | _ :: _ => true end
  end.

(** [a || b] *)
Definition js_or (a b : JsVal) : JsVal := if truthy a then a else b.

(** [a === b] on the values above. *)
Definition strict_eq (a b : JsVal) : bool :=
  match a, b with
  | JUndefined, JUndefined => true
  | JNull, JNull => true
  | JBool x, JBool y => Bool.eqb x y
  | JNum x, JNum y => (x =? y)%Z
  | JStr x, JStr y => jsstring_eqb x y
  | _, _ => false
  end.

(** ToString, as applied by [+] with a string operand and by a template
    literal. *)
Definition Z_to_jsstring (n : Z) : jsstring :=
  lit (NilZero.string_of_int (Z.to_int n)).

Definition ToString (v : JsVal) : jsstring :=
  match v with
  | JUndefined => lit "undefined"
  | JNull => lit "null"
  | JBool true => lit "true"
  | JBool false => lit "false"
  | JNum n => Z_to_jsstring n
  | JStr s => s
  end.

(** The integers that JavaScript holds exactly and writes in full, digit
    by digit: those up to [Number.MAX_SAFE_INTEGER] in absolute value.
    [ToString] is JavaScript's on them. *)
Definition is_safe_integer (n : Z) : bool :=
  (Z.abs n <=? 9007199254740991)%Z.

Definition written_in_full (v : JsVal) : bool :=
  match v with
  | JNum n => is_safe_integer n
  | _ => true
  end.

(** [a + b] where one operand is a string. *)
Definition js_concat (a b : JsVal) : jsstring := ToString a ++ ToString b.

(** *** String.prototype.includes *)

Fixpoint starts_with (needle s : jsstring) : bool :=
  match needle, s with
  | [], _ => true
  | _ :: _, [] => false
  | a :: needle', b :: s' => (a =? b)%N && starts_with needle' s'
  end.

Fixpoint includes (s needle : jsstring) : bool :=
  starts_with needle s ||
  match s with
  | [] => false
  | _ :: s' => includes s' needle
  end.

(** [needle] occurs in [s] as a block of consecutive code units. *)
Definition contains (s needle : jsstring) : Prop :=
  exists before after, s = before ++ needle ++ after.

(** *** Completions: a call returns or throws *)

Inductive JsError := TypeError.

Inductive Completion (A : Type) :=
| Normal (a : A)
| Throw (e : JsError).
Arguments Normal {A} a.
Arguments Throw {A} e.

(** [v.includes(needle)]: reading a property of [undefined] or [null]
    throws, and a boolean or a number has no method [includes]. *)
Definition call_includes (v : JsVal) (needle : jsstring) : Completion bool :=
  match v with
  | JStr s => Normal (includes s needle)
  | _ => Throw TypeError
  end.

(** ** Framework calls *)

(** The [indicator] of [frappe.show_alert]. *)
Inductive Indicator := green | red | blue.

(** The calls into the desk framework that the scripts make.  A function of
    the scripts is modelled by the list of the calls it makes, oldest
    first. *)
Inductive Effect :=
| msgprint (text : jsstring)                      (* frappe.msgprint *)
| confirm (text : jsstring)                       (* frappe.confirm *)
| dialog_show                                     (* progress_dialog.show() *)
| dialog_hide                                     (* progress_dialog.hide() *)
| realtime_on (event : jsstring)                  (* frappe.realtime.on *)
| call (method : jsstring) (customer_site : JsVal) (* frappe.call *)
| reload_doc                                      (* frm.reload_doc() *)
| show_alert (text : jsstring) (indicator : Indicator)
| set_value (fieldname : jsstring) (value : jsstring)
| show_domain_preview.

Definition is_call (e : Effect) : bool :=
  match e with call _ _ => true | _ => false end.

Definition is_confirm (e : Effect) : bool :=
  match e with confirm _ => true | _ => false end.

Definition is_msgprint (e : Effect) : bool :=
  match e with msgprint _ => true | _ => false end.

Definition is_alert (e : Effect) : bool :=
  match e with show_alert _ _ => true | _ => false end.

Definition is_red_alert (e : Effect) : bool :=
  match e with show_alert _ red => true | _ => false end.

Definition is_green_alert (e : Effect) : bool :=
  match e with show_alert _ green => true | _ => false end.

Definition is_reload (e : Effect) : bool :=
  match e with reload_doc => true | _ => false end.

(** ** The progress dialog *)

(** The three elements of the dialog's HTML field that [update_progress]
    writes: the style property [width] of [#progress-bar], the text of
    [#progress-text], and, for each append to [#progress-log], oldest
    first, the text that the appended nodes show; [None] stands for an
    append whose markup the embedding does not follow. *)
Record Dialog := {
  bar_width : jsstring;
  progress_text : jsstring;
  progress_log : list (option jsstring)
}.

(** The dialog as its HTML template builds it. *)
Definition new_dialog : Dialog :=
  {| bar_width := lit "0%";
     progress_text := lit "Initializing...";
     progress_log := [] |}.

(** jQuery's [.text(v)]: [undefined] leaves the text as it is, [null]
    empties it, anything else is written as a string. *)
Definition jq_text (v : JsVal) (old : jsstring) : jsstring :=
  match v with
  | JUndefined => old
  | JNull => []
  | _ => ToString v
  end.

Definition newline : jsstring := [10%N].

(** The template literal [`[${timestamp}] ${message}\n`]. *)
Definition log_entry (timestamp : jsstring) (message : JsVal) : jsstring :=
  lit "[" ++ timestamp ++ lit "] " ++ ToString message ++ newline.

(** [$(bar).css('width', percentage + '%')].  jQuery's setter of [width]
    writes a number with its unit, the number raised to 0 when it is
    negative.  A percentage that is not a number is outside what the
    embedding follows of the setter and of the style sheet: the string is
    recorded as it is handed over. *)
Definition css_width (percentage : JsVal) : jsstring :=
  match percentage with
  | JNum n => Z_to_jsstring (Z.max 0 n) ++ lit "%"
  | _ => js_concat percentage (JStr (lit "%"))
  end.

(** *** jQuery's [.append(string)]

    A string in which [rhtml], that is [/<|&#?\w+;/], finds nothing is
    appended as one text node.  Any other string is handed to the HTML
    parser, and what it builds is appended. *)

Definition is_ascii_alpha (c : N) : bool :=
  (((65 <=? c) && (c <=? 90)) || ((97 <=? c) && (c <=? 122)))%N.

(** The class [\w]. *)
Definition is_word_char (c : N) : bool :=
  (is_ascii_alpha c || ((48 <=? c) && (c <=? 57)) || (c =? 95))%N.

(** [\w+;] at the start of [s]; [seen] tells that a character of the class
    has been read. *)
Fixpoint word_run_then_semicolon (s : jsstring) (seen : bool) : bool :=
  match s with
  | [] => false
  | c :: rest =>
      if is_word_char c then word_run_then_semicolon rest true
      else seen && (c =? 59)%N
  end.

(** [#?\w+;] at the start of [s]. *)
Definition reference_body (s : jsstring) : bool :=
  match s with
  | 35%N :: rest => word_run_then_semicolon rest false
  | _ => word_run_then_semicolon s false
  end.

(** [rhtml.test(s)] *)
Fixpoint rhtml_test (s : jsstring) : bool :=
  match s with
  | [] => false
  | c :: rest =>
      (c =? 60)%N || ((c =? 38)%N && reference_body rest) || rhtml_test rest
  end.

(** The name that [rtagName] reads after a ["<"], in lower case: the
    characters up to a slash, a NUL, a [">"] or white space. *)
Fixpoint tag_name (s : jsstring) : jsstring :=
  match s with
  | [] => []
  | c :: rest =>
      if ((c =? 47) || (c =? 0) || (c =? 62) || (c =? 32) || (c =? 9)
          || (c =? 13) || (c =? 10) || (c =? 12))%N
      then []
      else (if ((65 <=? c) && (c <=? 90))%N then (c + 32)%N else c)
           :: tag_name rest
  end.

(** The tags for which jQuery wraps the string before it is parsed. *)
Definition wrapped_tags : list jsstring :=
  map lit ["thead"; "col"; "tr"; "td"; "tbody"; "tfoot"; "colgroup";
           "caption"; "th"; "option"; "optgroup"]%string.

(** The text of the nodes that the parser builds, where the embedding
    follows it.  A ["<"] that no letter, slash, ["!"] or ["?"] follows is
    text.  A ["<"] before a letter opens a tag; when no [">"] comes after
    it the input ends inside the tag, and the tag and all that follows it
    are dropped.  A tag that is closed, an end tag, a comment or a wrapped
    tag is not followed. *)
Fixpoint html_scan (s : jsstring) : option jsstring :=
  match s with
  | [] => Some []
  | c :: rest =>
      if (c =? 60)%N then
        match rest with
        | [] => Some [60%N]
        | c' :: _ =>
            if is_ascii_alpha c' then
              if existsb (N.eqb 62) rest
                 || existsb (jsstring_eqb (tag_name rest)) wrapped_tags
              then None
              else Some []
            else if ((c' =? 47) || (c' =? 33) || (c' =? 63))%N then None
            else option_map (cons 60%N) (html_scan rest)
        end
      else option_map (cons c) (html_scan rest)
  end.

(** Character references, carriage returns and NUL are not followed. *)
Definition html_text (s : jsstring) : option jsstring :=
  if existsb (fun c => (c =? 38) || (c =? 13) || (c =? 0))%N s then None
  else html_scan s.

(** The text that [$(log).append(html)] adds. *)
Definition jq_append_text (html : jsstring) : option jsstring :=
  if rhtml_test html then html_text html else Some html.

(** [update_progress(percentage, message, dialog)].  [timestamp] is what
    [new Date().toLocaleTimeString()] returns during the call. *)
Definition update_progress (percentage message : JsVal)
    (timestamp : jsstring) (dialog : Dialog) : Dialog :=
  {| bar_width := css_width percentage;
     progress_text := jq_text message (progress_text dialog);
     progress_log :=
       progress_log dialog ++ [jq_append_text (log_entry timestamp message)] |}.


(** The gauge as the description of the presenter has it: the percentage
    brought into the range 0 to 100 before it is written. *)
Definition spec_clamp (percentage : Z) : Z :=
  Z.min 100 (Z.max 0 percentage).

Definition spec_clamped_gauge (percentage : Z) : jsstring :=
  js_concat (JNum (spec_clamp percentage)) (JStr (lit "%")).

(** ** Script actions: dialog state, emitted calls, completion *)

(** What a callback of the scripts does: it changes the dialog it closes
    over, makes framework calls, and returns or throws.  What was done
    before a throw stays done. *)
Definition Action (A : Type) : Type :=
  Dialog -> Dialog * list Effect * Completion A.

Definition ret {A} (a : A) : Action A := fun d => (d, [], Normal a).

Definition bind {A B} (m : Action A) (k : A -> Action B) : Action B :=
  fun d =>
    match m d with
    | (d1, out1, Normal a) =>
        match k a d1 with
        | (d2, out2, c) => (d2, out1 ++ out2, c)
        end
    | (d1, out1, Throw e) => (d1, out1, Throw e)
    end.

Definition emit (e : Effect) : Action unit := fun d => (d, [e], Normal tt).

Definition modify (f : Dialog -> Dialog) : Action unit :=
  fun d => (f d, [], Normal tt).

Definition lift {A} (c : Completion A) : Action A := fun d => (d, [], c).

Declare Scope action_scope.
Delimit Scope action_scope with action.
Notation "x <- m ;; k" := (bind m (fun x => k))
  (at level 61, m at next level, right associativity) : action_scope.
Notation "m ;; k" := (bind m (fun _ => k))
  (at level 61, right associativity) : action_scope.

Definition dialog_of {A} (r : Dialog * list Effect * Completion A) : Dialog :=
  fst (fst r).
Definition emitted {A} (r : Dialog * list Effect * Completion A)
  : list Effect := snd (fst r).
Definition completion {A} (r : Dialog * list Effect * Completion A)
  : Completion A := snd r.

(** [__] when no translation of the source texts is loaded. *)
Definition untranslated (text : jsstring) : jsstring := text.

(** ** The Customer Site form: creating a site with a progress dialog *)

Module CustomerSite.

(** The fields of [frm.doc] that the script reads.  A field that is not set
    reads as [JUndefined] or [JNull]. *)
Record Doc := {
  name : JsVal;
  status : JsVal;
  custom_domain : JsVal;
  instance : JsVal;
  package : JsVal
}.

(** A message of the channel ['site_creation_progress']: [data.progress] and
    [data.message], [JUndefined] when the field is absent. *)
Record ProgressEvent := {
  progress : JsVal;
  message : JsVal
}.

(** The body of the start call's response, [r.message], when it is an
    object: its fields [success] and [message]. *)
Record Reply := {
  success : JsVal;
  reply_message : JsVal
}.

(** The text of [data.message] contains [needle]. *)
Definition message_contains (data : ProgressEvent) (needle : jsstring)
  : Prop :=
  exists text, message data = JStr text /\ contains text needle.

Definition create_site_method : jsstring :=
  lit "saas_package_management.saas_package_management.doctype.customer_site.customer_site.create_site".

Definition progress_channel : jsstring := lit "site_creation_progress".

Section Script.

(** [__], the framework's lookup of a translation of a source text. *)
Variable __ : jsstring -> jsstring.

(** [create_site_with_progress(frm)] up to the confirmation prompt.  The
    prompt's continuation, run when the user answers yes, is
    [start_site_creation]. *)
Definition create_site_with_progress (doc : Doc) : list Effect :=
  if negb (truthy (custom_domain doc)) then
    [msgprint (__ (lit "Custom Domain is required to create site"))]
  else if negb (truthy (instance doc)) then
    [msgprint (__ (lit "Instance is required to create site"))]
  else if negb (truthy (package doc)) then
    [msgprint (__ (lit "Package is required to create site"))]
  else
    [confirm (__ (lit "Are you sure you want to create the site? This process may take several minutes."))].

(** The listener given to [frappe.realtime.on('site_creation_progress', _)],
    run on each message [data] of the channel. *)
Definition on_site_creation_progress (data : ProgressEvent)
    (timestamp : jsstring) : Action unit :=
  (modify (update_progress (js_or (progress data) (JNum 0))
                           (js_or (message data) (JStr []))
                           timestamp) ;;
   if strict_eq (progress data) (JNum 100) then
     emit reload_doc ;;
     emit (show_alert (__ (lit "Site created successfully!")) green)
   else if strict_eq (progress data) (JNum 0) then
     found <- lift (call_includes (message data) (lit "failed")) ;;
     if (found : bool) then
       emit (show_alert
               (__ (js_concat (JStr (lit "Site creation failed: "))
                              (message data)))
               red)
     else ret tt
   else ret tt)%action.

(** What the presenter shows after a message of the channel: the first
    statement of the listener. *)
Definition presented (data : ProgressEvent) (timestamp : jsstring)
    (d : Dialog) : Dialog :=
  update_progress (js_or (progress data) (JNum 0))
                  (js_or (message data) (JStr [])) timestamp d.

(** The [callback] of the start call, run with the response [r] once the
    server has answered; [r_message] is [r.message], [None] when it is
    [undefined] or [null]. *)
Definition create_site_callback (r_message : option Reply)
    (timestamp : jsstring) : Action unit :=
  match r_message with
  | Some reply =>
      if truthy (success reply) then
        modify (update_progress (JNum 5)
                  (JStr (lit "Site creation process started..."))
                  timestamp)
      else
        let text :=
          js_concat (JStr (lit "Failed to start site creation: "))
                    (js_or (reply_message reply) (JStr (lit "Unknown error")))
        in
        (modify (update_progress (JNum 0) (JStr text) timestamp) ;;
         emit (show_alert (__ text) red))%action
  | None =>
      (* [r.message && r.message.success] is falsy; the else branch reads
         [r.message.message] *)
      lift (Throw TypeError)
  end.

(** [start_site_creation(frm)]: the dialog is built and shown, the listener
    is registered, the start call is issued.  The listener and the callback
    run later, from the event loop. *)
Definition start_site_creation (doc : Doc) : Dialog * list Effect :=
  (new_dialog,
   [dialog_show;
    realtime_on progress_channel;
    call create_site_method (name doc)]).

(** The dialog's primary action, labelled Close. *)
Definition primary_action : list Effect := [dialog_hide].

(** *** The form page around one launch

    The desk runs the functions above from its event loop, one at a time:
    a click on the button Create Site, the answer to the confirmation
    prompt, a message of the progress channel, the response of the start
    call, a click on Close.  [Page] is what decides which of them can run
    and on what: whether the prompt is open, the dialog once it exists,
    whether a listener is registered on the channel, whether the start call
    is awaiting its response; [trace] is every framework call made so far.
    The page is followed from a freshly loaded form through one launch, on
    a record that stays as it is; [LaunchFlow] follows the record through
    changes and further launches. *)

Record Page := {
  frm_doc : Doc;
  prompt_open : bool;
  progress_dialog : option Dialog;
  listening : bool;
  in_flight : bool;
  trace : list Effect
}.

Definition fresh (doc : Doc) : Page :=
  {| frm_doc := doc;
     prompt_open := false;
     progress_dialog := None;
     listening := false;
     in_flight := false;
     trace := [] |}.

Definition is_listen (e : Effect) : bool :=
  match e with
  | realtime_on event => jsstring_eqb event progress_channel
  | _ => false
  end.

(** The framework carries out one call of a script. *)
Definition perform (p : Page) (e : Effect) : Page :=
  {| frm_doc := frm_doc p;
     prompt_open := prompt_open p || is_confirm e;
     progress_dialog := progress_dialog p;
     listening := listening p || is_listen e;
     in_flight := in_flight p || is_call e;
     trace := trace p ++ [e] |}.

Definition perform_all (p : Page) (es : list Effect) : Page :=
  fold_left perform es p.

Definition with_dialog (p : Page) (d : Dialog) : Page :=
  {| frm_doc := frm_doc p;
     prompt_open := prompt_open p;
     progress_dialog := Some d;
     listening := listening p;
     in_flight := in_flight p;
     trace := trace p |}.

Definition close_prompt (p : Page) : Page :=
  {| frm_doc := frm_doc p;
     prompt_open := false;
     progress_dialog := progress_dialog p;
     listening := listening p;
     in_flight := in_flight p;
     trace := trace p |}.

Definition answered (p : Page) : Page :=
  {| frm_doc := frm_doc p;
     prompt_open := prompt_open p;
     progress_dialog := progress_dialog p;
     listening := listening p;
     in_flight := false;
     trace := trace p |}.

Inductive Input :=
| click_create_site
| answer (yes : bool)
| push (data : ProgressEvent) (timestamp : jsstring)
| response (r_message : option Reply) (timestamp : jsstring)
| click_close.

(** One turn of the event loop; [None] when the input cannot occur in this
    state.  An exception thrown by a callback ends that callback only. *)
Definition step (p : Page) (i : Input) : option Page :=
  match i with
  | click_create_site =>
      (* the button is added by [refresh] when the status is Active *)
      if strict_eq (status (frm_doc p)) (JStr (lit "Active"))
         && negb (prompt_open p)
         && match progress_dialog p with None => true | Some _ => false end
      then Some (perform_all p (create_site_with_progress (frm_doc p)))
      else None
  | answer yes =>
      if prompt_open p then
        if yes then
          let (d, es) := start_site_creation (frm_doc p) in
          Some (perform_all (with_dialog (close_prompt p) d) es)
        else Some (close_prompt p)
      else None
  | push data timestamp =>
      if listening p then
        match progress_dialog p with
        | Some d =>
            let r := on_site_creation_progress data timestamp d in
            Some (perform_all (with_dialog p (dialog_of r)) (emitted r))
        | None => None
        end
      else Some p
  | response r_message timestamp =>
      if in_flight p then
        match progress_dialog p with
        | Some d =>
            let r := create_site_callback r_message timestamp d in
            Some (perform_all (with_dialog (answered p) (dialog_of r))
                              (emitted r))
        | None => None
        end
      else None
  | click_close =>
      match progress_dialog p with
      | Some _ => Some (perform_all p primary_action)
      | None => None
      end
  end.

Fixpoint run (p : Page) (inputs : list Input) : option Page :=
  match inputs with
  | [] => Some p
  | i :: rest =>
      match step p i with
      | Some p' => run p' rest
      | None => None
      end
  end.

(** A start call that awaits its response was issued with the listener
    already registered. *)
Definition listener_before_response (p : Page) : Prop :=
  in_flight p = true -> listening p = true.

(** The listener run on each message of a list, in the order of arrival,
    on the same dialog. *)
Fixpoint deliver_all (events : list (ProgressEvent * jsstring))
    (d : Dialog) : Dialog * list Effect :=
  match events with
  | [] => (d, [])
  | (data, timestamp) :: rest =>
      let r := on_site_creation_progress data timestamp d in
      let (d', out) := deliver_all rest (dialog_of r) in
      (d', emitted r ++ out)
  end.

(** The reloads and notifications among the calls made. *)
Definition terminal_actions (out : list Effect) : list Effect :=
  filter (fun e => is_reload e || is_alert e) out.

(** The start call is answered with [reply], then the messages [events]
    arrive: the calls made by the callback and by the listener, in order. *)
Definition calls_after_reply (reply : Reply) (timestamp : jsstring)
    (events : list (ProgressEvent * jsstring)) (d : Dialog) : list Effect :=
  let r := create_site_callback (Some reply) timestamp d in
  emitted r ++ snd (deliver_all events (dialog_of r)).

(** After a successful start nothing is reloaded and nothing notified as
    long as no message with progress 100 has arrived, as the description of
    the launcher has it. *)
Definition spec_silent_until_100 (reply : Reply) (timestamp : jsstring)
    (events : list (ProgressEvent * jsstring)) (d : Dialog) : Prop :=
  truthy (success reply) = true ->
  (forall ev, In ev events -> progress (fst ev) <> JNum 100) ->
  terminal_actions (calls_after_reply reply timestamp events d) = [].

End Script.

(** [update_progress] called once per element of a list, in order, on the
    same dialog. *)
Fixpoint render_all (calls : list (JsVal * JsVal * jsstring))
    (d : Dialog) : Dialog :=
  match calls with
  | [] => d
  | (percentage, text, timestamp) :: rest =>
      render_all rest (update_progress percentage text timestamp d)
  end.

(** *** Sample records and sessions *)

(** A site whose instance is empty and whose package is not set. *)
Definition site_without_instance : Doc :=
  {| name := JStr (lit "acme-site");
     status := JStr (lit "Active");
     custom_domain := JStr (lit "acme");
     instance := JStr [];
     package := JUndefined |}.

(** A site with the three required fields. *)
Definition acme_site : Doc :=
  {| name := JStr (lit "acme-site");
     status := JStr (lit "Active");
     custom_domain := JStr (lit "acme");
     instance := JStr (lit "inst-1");
     package := JStr (lit "pro") |}.

(** The button is clicked, the prompt confirmed, a first message arrives
    while the start call is still awaiting its response. *)
Definition acme_launch : list Input :=
  [click_create_site;
   answer true;
   push {| progress := JNum 10; message := JStr (lit "provisioning") |}
        (lit "10:00:01")].

(** Three messages in the order of their arrival. *)
Definition retry_then_done : list (ProgressEvent * jsstring) :=
  [({| progress := JNum 10; message := JStr (lit "provisioning") |},
    lit "10:00:01");
   ({| progress := JNum 0; message := JStr (lit "retry failed") |},
    lit "10:02:10");
   ({| progress := JNum 100; message := JStr (lit "done") |},
    lit "10:04:31")].

End CustomerSite.

(** ** The Customer Request form: suggesting a custom domain *)

Module CustomerRequest.

(** The fields of [frm.doc] that the handler of [customer_name] reads. *)
Record Doc := {
  customer_name : JsVal;
  custom_domain : JsVal
}.

Definition hyphen : N := 45%N.

(** The class [\s] of a regular expression without the flag [u]: the
    white space and line terminator code points of ECMAScript. *)
Definition is_space (c : N) : bool :=
  ((c =? 9) || (c =? 10) || (c =? 11) || (c =? 12) || (c =? 13)
   || (c =? 32) || (c =? 160) || (c =? 5760)
   || ((8192 <=? c) && (c <=? 8202))
   || (c =? 8232) || (c =? 8233) || (c =? 8239) || (c =? 8287)
   || (c =? 12288) || (c =? 65279))%N.

(** The class [[^a-zA-Z0-9-]]. *)
Definition in_a_z (c : N) : bool := ((97 <=? c) && (c <=? 122))%N.
Definition in_A_Z (c : N) : bool := ((65 <=? c) && (c <=? 90))%N.
Definition in_0_9 (c : N) : bool := ((48 <=? c) && (c <=? 57))%N.

Definition not_domain_char (c : N) : bool :=
  negb (in_a_z c || in_A_Z c || in_0_9 c || (c =? hyphen)%N).

(** The longest prefix of characters of a class, and what follows it: what
    [p+] matches at the start of [s], greedily. *)
Fixpoint span (p : N -> bool) (s : jsstring) : jsstring * jsstring :=
  match s with
  | [] => ([], [])
  | c :: s' =>
      if p c then let (run, rest) := span p s' in (c :: run, rest)
      else ([], s)
  end.

(** [s.replace(/p+/g, by)] for a character class [p] and a replacement
    without [$]: scanning from the left, each match is a character of the
    class with all of the class that follow it; the search goes on after the
    match. *)
Equations? replace_plus (p : N -> bool) (by_ : jsstring) (s : jsstring)
  : jsstring by wf (List.length s) lt :=
  replace_plus p by_ [] := [];
  replace_plus p by_ (c :: s') with p c := {
    | true := by_ ++ replace_plus p by_ (snd (span p s'));
    | false := c :: replace_plus p by_ s' }.
Proof.
  assert (shorter : forall t, List.length (snd (span p t)) <= List.length t).
  { induction t as [|a t IH]; simpl; [lia|].
    destruct (p a); [|simpl; lia].
    destruct (span p t) as [run rest]; simpl in *; lia. }
  specialize (shorter s'). simpl. lia.
Qed.

(** [s.replace(/p/g, '')] for a character class [p]: every match is one
    character, and it is dropped. *)
Definition remove_class (p : N -> bool) (s : jsstring) : jsstring :=
  filter (fun c => negb (p c)) s.

(** [s.substring(0, n)] *)
Definition substring_from_0 (n : nat) (s : jsstring) : jsstring := firstn n s.

Section Script.

(** [String.prototype.toLowerCase], the case mapping of the platform. *)
Variable toLowerCase : jsstring -> jsstring.

(** The expression bound to [suggested_domain]. *)
Definition suggested_domain (customer_name : jsstring) : jsstring :=
  substring_from_0 20
    (remove_class not_domain_char
       (replace_plus is_space [hyphen] (toLowerCase customer_name))).

(** The handler of the field [customer_name]: the document after it, and
    the framework calls made.  A customer name that is truthy and not a
    string has no method [toLowerCase]. *)
Definition customer_name_handler (doc : Doc)
  : Completion (Doc * list Effect) :=
  if truthy (customer_name doc) && negb (truthy (custom_domain doc)) then
    match customer_name doc with
    | JStr text =>
        let suggested := suggested_domain text in
        if truthy (JStr suggested) then
          Normal ({| customer_name := customer_name doc;
                     custom_domain := JStr suggested |},
                  [set_value (lit "custom_domain") suggested;
                   show_domain_preview])
        else Normal (doc, [])
    | _ => Throw TypeError
    end
  else Normal (doc, []).

End Script.

(** [toLowerCase] on the ASCII letters; the other code units of the ASCII
    range have no lower case. *)
Definition ascii_toLowerCase (s : jsstring) : jsstring :=
  map (fun c => if in_A_Z c then (c + 32)%N else c) s.

(** *** The suggestion, from its description

    The customer name lower-cased, every run of whitespace replaced by a
    hyphen, every character other than an ASCII letter, a digit or a hyphen
    removed, cut to at most 20 characters. *)

(** The maximal blocks of consecutive characters that are all in the class
    or all outside it, in order, each with its side. *)
Fixpoint blocks (p : N -> bool) (s : jsstring) : list (bool * jsstring) :=
  match s with
  | [] => []
  | c :: s' =>
      match blocks p s' with
      | (side, block) :: rest =>
          if Bool.eqb side (p c) then (side, c :: block) :: rest
          else (p c, [c]) :: (side, block) :: rest
      | [] => [(p c, [c])]
      end
  end.

Definition spec_hyphenate_runs (s : jsstring) : jsstring :=
  List.concat (map (fun b : bool * jsstring =>
                 if fst b then [hyphen] else snd b)
              (blocks is_space s)).

Definition spec_is_kept (c : N) : bool :=
  in_a_z c || in_A_Z c || in_0_9 c || (c =? hyphen)%N.

Definition spec_suggested_domain (lower_cased : jsstring) : jsstring :=
  firstn 20 (filter spec_is_kept (spec_hyphenate_runs lower_cased)).

(** A request with a customer name and no custom domain yet. *)
Definition acme_request : Doc :=
  {| customer_name := JStr (lit "Acme  Corp, Inc. (Holdings) Limited");
     custom_domain := JUndefined |}.

End CustomerRequest.

(** ** The Customer Request form: the preview of the full domain *)

Module DomainPreview.

Definition domain_suffix : jsstring := lit ".ibssaas.com".

(** [s.endsWith(suffix)]: the last code units of [s], as many as [suffix]
    has, are those of [suffix]. *)
Definition endsWith (s suffix : jsstring) : bool :=
  if (List.length s <? List.length suffix)%nat then false
  else jsstring_eqb (skipn (List.length s - List.length suffix) s) suffix.

(** The value of [full_domain] in [show_domain_preview], for a custom
    domain that is a string. *)
Definition full_domain (custom_domain : jsstring) : jsstring :=
  if negb (endsWith custom_domain domain_suffix)
  then custom_domain ++ domain_suffix
  else custom_domain.

(** What [show_domain_preview] reads and changes of the page: the elements
    of class [custom-domain-preview], in document order, each given by the
    full domain it shows, and whether an element with
    [data-fieldname="custom_domain"] is on the page.  The domain is taken as
    text: markup in it is not followed. *)
Record Document := {
  previews : list jsstring;
  custom_domain_field : bool
}.

(** [show_domain_preview(frm)], given [frm.doc.custom_domain].  The first
    preview found is removed; a truthy custom domain that is not a string
    has no method [endsWith]. *)
Definition show_domain_preview (custom_domain : JsVal) (page : Document)
  : Document * Completion unit :=
  let cleared :=
    {| previews := tl (previews page);
       custom_domain_field := custom_domain_field page |} in
  if truthy custom_domain then
    match custom_domain with
    | JStr text =>
        if custom_domain_field page then
          ({| previews := previews cleared ++ [full_domain text];
              custom_domain_field := custom_domain_field page |},
           Normal tt)
        else (cleared, Normal tt)
    | _ => (cleared, Throw TypeError)
    end
  else (cleared, Normal tt).

(** What the button Open Site does with the response of [get_value]. *)
Inductive Opened :=
| window_open (url target : jsstring)
| not_configured (text : jsstring).

Section Script.

Variable __ : jsstring -> jsstring.

(** The callback of the button Open Site.  [domain_response] is [None] when
    the response is missing, [Some None] when it has no [message], and
    [Some (Some v)] when [message.custom_domain] is [v]. *)
Definition open_site_callback (domain_response : option (option JsVal))
  : Opened :=
  match domain_response with
  | Some (Some custom_domain) =>
      if truthy custom_domain then
        window_open (js_concat (JStr (lit "https://")) custom_domain)
                    (lit "_blank")
      else not_configured (__ (lit "Custom domain not configured for this site"))
  | _ => not_configured (__ (lit "Custom domain not configured for this site"))
  end.

End Script.

End DomainPreview.

(** ** The Instance Action form: the table of site actions *)

Module InstanceAction.

(** An element of the list that [get_instance_sites] returns. *)
Module Site.
Record t := {
  site_name : JsVal;
  customer_site : JsVal
}.
End Site.

(** A row of the child table [site_actions]. *)
Module Row.
Record t := {
  site : JsVal;
  site_name : JsVal;
  action : JsVal
}.
End Row.

(** The calls that the handler makes on the form. *)
Inductive FormCall :=
| clear_table (fieldname : jsstring)
| refresh_field (fieldname : jsstring)
| save_then_alert (text : jsstring) (indicator : jsstring)
| alert (text : jsstring) (indicator : jsstring).

(** The row that [frm.add_child('site_actions')] returns, once the body of
    the [forEach] has filled it for [s]. *)
Definition row_of (s : Site.t) : Row.t :=
  if truthy (Site.customer_site s) then
    {| Row.site := Site.customer_site s;
       Row.site_name := Site.site_name s;
       Row.action := JStr (lit "Start Site") |}
  else
    {| Row.site := JUndefined;
       Row.site_name := Site.site_name s;
       Row.action := JStr (lit "Start Site") |}.

(** [frm.doc.site_actions.find(row => row.site_name === site.site_name)]
    finds a row. *)
Definition existing_row (rows : list Row.t) (s : Site.t) : bool :=
  existsb (fun row => strict_eq (Row.site_name row) (Site.site_name s)) rows.

(** One turn of the [forEach] on the table built so far. *)
Definition add_site (rows : list Row.t) (s : Site.t) : list Row.t :=
  if existing_row rows s then rows else rows ++ [row_of s].

(** The [then] callback of the call to [get_instance_sites], of the button
    Refresh Sites and of the handler of the field [instance] alike.
    [r_message] is [None] when [r.message] is missing, else the list
    received; the result is the table [frm.doc.site_actions] afterwards and
    the calls made. *)
Definition on_instance_sites (r_message : option (list Site.t))
    (site_actions : list Row.t) : list Row.t * list FormCall :=
  match r_message with
  | Some ((_ :: _) as sites) =>
      (fold_left add_site sites [],
       [clear_table (lit "site_actions");
        refresh_field (lit "site_actions");
        save_then_alert
          (lit "Found "
           ++ ToString (JNum (Z.of_nat (List.length sites)))
           ++ lit " sites on the server and saved to Instance Action")
          (lit "green")])
  | _ =>
      (site_actions,
       [alert (lit "No sites found on this instance. Check if bench directory exists and sites are properly configured.")
              (lit "orange")])
  end.

(** *** Texts and icons of the action types *)

(** The own property [key] of an object literal given by its entries. *)
Fixpoint own_property (entries : list (jsstring * jsstring))
    (key : jsstring) : option jsstring :=
  match entries with
  | [] => None
  | (k, v) :: rest =>
      if jsstring_eqb k key then Some v else own_property rest key
  end.

(** The property names that an object literal inherits from
    [Object.prototype]. *)
Definition object_prototype_names : list jsstring :=
  map lit
    ["constructor"; "__defineGetter__"; "__defineSetter__";
     "hasOwnProperty"; "__lookupGetter__"; "__lookupSetter__";
     "isPrototypeOf"; "propertyIsEnumerable"; "toString"; "valueOf";
     "__proto__"; "toLocaleString"]%string.

(** What [table[key] || fallback] evaluates to: a text, or the member of
    [Object.prototype] of that name, which is an object and so truthy. *)
Inductive Looked :=
| text (s : jsstring)
| inherited (name : jsstring).

Definition lookup_or (entries : list (jsstring * jsstring)) (key : JsVal)
    (fallback : jsstring) : Looked :=
  match own_property entries (ToString key) with
  | Some v => if truthy (JStr v) then text v else text fallback
  | None =>
      if existsb (jsstring_eqb (ToString key)) object_prototype_names
      then inherited (ToString key)
      else text fallback
  end.

Definition entries_of (l : list (string * string))
  : list (jsstring * jsstring) :=
  map (fun e => (lit (fst e), lit (snd e))) l.

(** The table of [get_action_details]. *)
Definition action_details : list (jsstring * jsstring) :=
  entries_of
    [("Start Instance", "Start the instance and all associated services");
     ("Stop Instance", "Stop the instance and all associated services");
     ("Restart Instance", "Restart the instance and all associated services");
     ("Backup Instance", "Create a backup of the instance and all its data");
     ("Restore Instance", "Restore the instance from a previous backup");
     ("Update Instance", "Update the instance with latest patches and updates");
     ("Monitor Instance", "Check instance health and performance metrics");
     ("Maintenance Mode", "Enable or disable maintenance mode for the instance");
     ("Site Management", "Manage individual sites on the instance")]%string.

Definition custom_action : jsstring :=
  lit "Custom action to be performed on the instance".

Definition get_action_details (action_type : JsVal) : Looked :=
  lookup_or action_details action_type custom_action.

(** The table of the list view's formatter of [action_type], and the icon
    it picks. *)
Definition action_icons : list (jsstring * jsstring) :=
  entries_of
    [("Start Instance", "play");
     ("Stop Instance", "stop");
     ("Restart Instance", "refresh");
     ("Backup Instance", "download");
     ("Restore Instance", "upload");
     ("Update Instance", "update");
     ("Monitor Instance", "monitor");
     ("Maintenance Mode", "settings");
     ("Site Management", "sitemap")]%string.

Definition action_icon (value : JsVal) : Looked :=
  lookup_or action_icons value (lit "gear").

(** The table of [get_site_action_details]. *)
Definition site_action_details : list (jsstring * jsstring) :=
  entries_of
    [("Start Site", "Start the site and make it accessible");
     ("Stop Site", "Stop the site and make it inaccessible");
     ("Restart Site", "Restart the site services");
     ("Backup Site", "Create a backup of the site data");
     ("Update Site", "Update the site with latest changes")]%string.

Definition get_site_action_details (action : JsVal) : Looked :=
  lookup_or site_action_details action
            (lit "Custom action to be performed on the site").

End InstanceAction.

(** ** The Customer Site form across refreshes, edits and launches

    [CustomerSite.Page] follows one launch on a record that stays as it
    is.  Here the record can change and the button can be clicked again;
    what is kept is the record, whether the button Create Site is on the
    page, the confirmation prompts that await an answer, and the framework
    calls made.  The listener and the callback of a launch make no call
    and ask nothing, so they are no inputs here. *)

Module LaunchFlow.

Record Form := {
  doc : CustomerSite.Doc;
  button : bool;
  prompts : nat;
  trace : list Effect
}.

Definition fresh (doc0 : CustomerSite.Doc) : Form :=
  {| doc := doc0; button := false; prompts := 0; trace := [] |}.

Inductive Input :=
| refresh                            (* the form is refreshed *)
| edit (doc' : CustomerSite.Doc)     (* the record changes *)
| click                              (* the button is clicked *)
| answer (yes : bool).               (* a prompt is answered *)

(** The test of the handler of [refresh]: the button is added when it
    holds. *)
Definition adds_button (d : CustomerSite.Doc) : bool :=
  strict_eq (CustomerSite.status d) (JStr (lit "Active")).

Section Script.

Variable __ : jsstring -> jsstring.

(** One turn of the event loop; [None] when the input cannot occur.  A
    button once added is taken to stay: if the framework removes it on a
    later refresh, fewer clicks are possible than here. *)
Definition step (f : Form) (i : Input) : option Form :=
  match i with
  | refresh =>
      Some {| doc := doc f;
              button := button f || adds_button (doc f);
              prompts := prompts f;
              trace := trace f |}
  | edit doc' =>
      Some {| doc := doc';
              button := button f;
              prompts := prompts f;
              trace := trace f |}
  | click =>
      if button f then
        let made := CustomerSite.create_site_with_progress __ (doc f) in
        Some {| doc := doc f;
                button := button f;
                prompts :=
                  prompts f + (if existsb is_confirm made then 1 else 0);
                trace := trace f ++ made |}
      else None
  | answer yes =>
      match prompts f with
      | 0 => None
      | S waiting =>
          Some {| doc := doc f;
                  button := button f;
                  prompts := waiting;
                  trace :=
                    if yes
                    then trace f
                         ++ snd (CustomerSite.start_site_creation (doc f))
                    else trace f |}
      end
  end.

Fixpoint run (f : Form) (inputs : list Input) : option Form :=
  match inputs with
  | [] => Some f
  | i :: rest =>
      match step f i with
      | Some f' => run f' rest
      | None => None
      end
  end.

End Script.

(** The record after the inputs, from the record [doc0]. *)
Fixpoint doc_after (doc0 : CustomerSite.Doc) (inputs : list Input)
  : CustomerSite.Doc :=
  match inputs with
  | [] => doc0
  | edit doc' :: rest => doc_after doc' rest
  | _ :: rest => doc_after doc0 rest
  end.

Definition is_active (d : CustomerSite.Doc) : Prop :=
  CustomerSite.status d = JStr (lit "Active").

Definition fields_set (d : CustomerSite.Doc) : Prop :=
  truthy (CustomerSite.custom_domain d) = true
  /\ truthy (CustomerSite.instance d) = true
  /\ truthy (CustomerSite.package d) = true.

(** Among the inputs there is a refresh that found the record Active. *)
Definition refreshed (doc0 : CustomerSite.Doc) (inputs : list Input)
  : Prop :=
  exists a b,
    inputs = a ++ refresh :: b /\ is_active (doc_after doc0 a).

(** ... and after it a click that found the three fields set. *)
Definition asked (doc0 : CustomerSite.Doc) (inputs : list Input) : Prop :=
  exists a b c,
    inputs = a ++ refresh :: b ++ click :: c
    /\ is_active (doc_after doc0 a)
    /\ fields_set (doc_after doc0 (a ++ refresh :: b)).

(** ... and after that a prompt answered with yes. *)
Definition consented (doc0 : CustomerSite.Doc) (inputs : list Input)
  : Prop :=
  exists a b c e,
    inputs = a ++ refresh :: b ++ click :: c ++ answer true :: e
    /\ is_active (doc_after doc0 a)
    /\ fields_set (doc_after doc0 (a ++ refresh :: b)).

(** What holds of a form reached by the inputs [h]. *)
Definition reached (doc0 : CustomerSite.Doc) (h : list Input) (f : Form)
  : Prop :=
  doc f = doc_after doc0 h
  /\ (button f = true -> refreshed doc0 h)
  /\ (0 < prompts f -> asked doc0 h)
  /\ (existsb is_call (trace f) = true -> consented doc0 h).

(** A record that is Active when the form is loaded, then loses a field
    and its status, with a click and a yes before and after. *)
Definition edited_launch : list Input :=
  [refresh; click; answer true;
   edit {| CustomerSite.name := JStr (lit "acme-site");
           CustomerSite.status := JStr (lit "Suspended");
           CustomerSite.custom_domain := JStr (lit "acme");
           CustomerSite.instance := JStr (lit "inst-1");
           CustomerSite.package := JStr (lit "pro") |};
   click; answer true].

End LaunchFlow.

(** ** Further notions for the properties *)

(** A text without ["<"] and without ["&"]: inserted as HTML it makes no
    element and shows as it is written. *)
Definition markup_free (s : jsstring) : bool :=
  negb (existsb (fun c => (c =? 60) || (c =? 38))%N s).

(** A character that a suggested domain can hold once the name is in lower
    case. *)
Definition is_lower_kept (c : N) : bool :=
  CustomerRequest.in_a_z c || CustomerRequest.in_0_9 c
  || (c =? CustomerRequest.hyphen)%N.

(** The message is one that the listener takes for a failure. *)
Definition is_failure_event (data : CustomerSite.ProgressEvent) : bool :=
  strict_eq (CustomerSite.progress data) (JNum 0)
  && match CustomerSite.message data with
     | JStr s => includes s (lit "failed")
     | _ => false
     end.

(** A request whose customer name is three spaces. *)
Definition blank_request : CustomerRequest.Doc :=
  {| CustomerRequest.customer_name := JStr (lit "   ");
     CustomerRequest.custom_domain := JStr [] |}.

(** Three sites as [get_instance_sites] can return them: the first name
    comes twice, once with and once without a Customer Site. *)
Definition sites_with_repeat : list InstanceAction.Site.t :=
  [{| InstanceAction.Site.site_name := JStr (lit "acme.example.com");
      InstanceAction.Site.customer_site := JStr (lit "SITE-0001") |};
   {| InstanceAction.Site.site_name := JStr (lit "beta.example.com");
      InstanceAction.Site.customer_site := JNull |};
   {| InstanceAction.Site.site_name := JStr (lit "acme.example.com");
      InstanceAction.Site.customer_site := JNull |}].

(** A page that shows the field and one preview. *)
Definition page_with_preview : DomainPreview.Document :=
  {| DomainPreview.previews := [lit "old.ibssaas.com"];
     DomainPreview.custom_domain_field := true |}.

(** * Properties *)

(** ** Values and strings *)

Example truthy_empty : truthy (JStr []) = false.
Proof. reflexivity. Qed.

Example tostring_150 : ToString (JNum 150) = lit "150".
Proof. reflexivity. Qed.

Example tostring_negative : ToString (JNum (-5)) = lit "-5".
Proof. reflexivity. Qed.

Example includes_failed :
  includes (lit "retry failed") (lit "failed") = true.
Proof. reflexivity. Qed.

Example includes_is_case_sensitive :
  includes (lit "Failed") (lit "failed") = false.
Proof. reflexivity. Qed.

Lemma jsstring_eqb_eq (s t : jsstring) : jsstring_eqb s t = true <-> s = t.
Proof.
  unfold jsstring_eqb. destruct (list_eq_dec N.eq_dec s t); split;
    congruence.
Qed.

Lemma strict_eq_num (v : JsVal) (n : Z) :
  strict_eq v (JNum n) = true <-> v = JNum n.
Proof.
  destruct v; simpl; split; try congruence.
  - intros H. apply Z.eqb_eq in H. congruence.
  - intros [= ->]. apply Z.eqb_refl.
Qed.

Lemma strict_eq_num_false (v : JsVal) (n : Z) :
  strict_eq v (JNum n) = false <-> v <> JNum n.
Proof.
  rewrite <- strict_eq_num. destruct (strict_eq v (JNum n)); split;
    congruence.
Qed.

Lemma starts_with_prefix (needle s : jsstring) :
  starts_with needle s = true <-> exists after, s = needle ++ after.
Proof.
  revert s. induction needle as [|a needle IH]; intros s; simpl.
  - split; [intros _; now exists s | reflexivity].
  - destruct s as [|b s].
    + split; [discriminate | intros [after H]; discriminate].
    + rewrite andb_true_iff, N.eqb_eq, IH. split.
      * intros [-> [after ->]]. now exists after.
      * intros [after [= -> ->]]. split; [reflexivity | now exists after].
Qed.

(** [includes] decides [contains]. *)
Lemma includes_contains (s needle : jsstring) :
  includes s needle = true <-> contains s needle.
Proof.
  unfold contains. induction s as [|c s IH].
  - simpl. rewrite orb_false_r, starts_with_prefix. split.
    + intros [after H]. now exists [], after.
    + intros [before [after H]].
      destruct before; [now exists after | discriminate].
  - cbn [includes]. rewrite orb_true_iff, starts_with_prefix, IH. split.
    + intros [[after H] | [before [after H]]].
      * now exists [], after.
      * exists (c :: before), after. now rewrite H.
    + intros [before [after H]]. destruct before as [|b before].
      * left. now exists after.
      * right. injection H as -> ->. now exists before, after.
Qed.

Lemma lit_inj (s t : string) : lit s = lit t -> s = t.
Proof.
  unfold lit. intros H.
  rewrite <- (string_of_list_ascii_of_string s),
          <- (string_of_list_ascii_of_string t).
  f_equal.
  revert H. generalize (list_ascii_of_string t).
  induction (list_ascii_of_string s) as [|a l IH]; intros [|b l'] H;
    simpl in H; try discriminate; [reflexivity|].
  injection H as Hab Hl. f_equal; [|now apply IH].
  rewrite <- (ascii_N_embedding a), <- (ascii_N_embedding b). now f_equal.
Qed.

Lemma Z_to_jsstring_inj (n m : Z) :
  Z_to_jsstring n = Z_to_jsstring m -> n = m.
Proof.
  unfold Z_to_jsstring. intros H. apply lit_inj in H.
  apply DecimalZ.to_int_inj.
  assert (parse : forall z,
            NilZero.int_of_string (NilZero.string_of_int (Z.to_int z))
            = Some (Z.to_int z)).
  { intros z. apply NilZero.isi; destruct z; simpl; try discriminate;
      intros [= E]; now apply DecimalPos.Unsigned.to_uint_nonnil in E. }
  pose proof (parse n) as Hn. rewrite H, parse in Hn. congruence.
Qed.

(** ** The site-creation progress flow *)

Section SiteCreationFacts.

Import CustomerSite.

Variable __ : jsstring -> jsstring.

Ltac run_listener :=
  unfold on_site_creation_progress, presented, bind, modify, emit,
    lift, ret, call_includes.

Lemma listener_at_100 data timestamp d :
  progress data = JNum 100 ->
  on_site_creation_progress __ data timestamp d =
    (presented data timestamp d,
     [reload_doc; show_alert (__ (lit "Site created successfully!")) green],
     Normal tt).
Proof.
  intros H. run_listener. rewrite H. reflexivity.
Qed.

Lemma listener_at_0_string data timestamp d text :
  progress data = JNum 0 ->
  message data = JStr text ->
  on_site_creation_progress __ data timestamp d =
    (presented data timestamp d,
     if includes text (lit "failed")
     then [show_alert
             (__ (lit "Site creation failed: " ++ text)) red]
     else [],
     Normal tt).
Proof.
  intros Hp Hm. run_listener. rewrite Hp, Hm. simpl.
  destruct (includes text (lit "failed")); reflexivity.
Qed.

Lemma listener_at_0_other data timestamp d :
  progress data = JNum 0 ->
  (forall text, message data <> JStr text) ->
  on_site_creation_progress __ data timestamp d =
    (presented data timestamp d, [], Throw TypeError).
Proof.
  intros Hp Hm. run_listener. rewrite Hp. simpl.
  destruct (message data) eqn:E; try reflexivity.
  now destruct (Hm s).
Qed.

Lemma listener_between data timestamp d :
  progress data <> JNum 100 ->
  progress data <> JNum 0 ->
  on_site_creation_progress __ data timestamp d = (presented data timestamp d, [], Normal tt).
Proof.
  intros H100 H0. run_listener.
  apply strict_eq_num_false in H100, H0. rewrite H100, H0. reflexivity.
Qed.

(** Every run of the listener calls [update_progress] once, first, also
    when it throws afterwards. *)
Lemma listener_presents data timestamp d :
  dialog_of (on_site_creation_progress __ data timestamp d) = presented data timestamp d.
Proof.
  destruct (strict_eq (progress data) (JNum 100)) eqn:E100.
  - apply strict_eq_num in E100. now rewrite listener_at_100.
  - apply strict_eq_num_false in E100.
    destruct (strict_eq (progress data) (JNum 0)) eqn:E0.
    + apply strict_eq_num in E0.
      destruct (message data) eqn:Em;
        try (rewrite listener_at_0_other;
             [reflexivity | assumption | intros t; congruence]).
      now rewrite (listener_at_0_string _ _ _ s).
    + apply strict_eq_num_false in E0. now rewrite listener_between.
Qed.

(** C1. A message whose progress is 100 is a success whatever its text,
    also when the text contains "failed" or is absent: the listener
    updates the presenter, reloads the record, raises the green
    notification, and returns. *)
Theorem progress_100_is_success data timestamp d :
  progress data = JNum 100 ->
  on_site_creation_progress __ data timestamp d =
    (update_progress (JNum 100) (js_or (message data) (JStr []))
                     timestamp d,
     [reload_doc; show_alert (__ (lit "Site created successfully!")) green],
     Normal tt).
Proof.
  intros H. rewrite listener_at_100 by assumption.
  unfold presented. rewrite H. reflexivity.
Qed.

(** C2. A message is a failure, that is the red notification with the
    text of the message is raised, exactly when its progress is 0 and its
    text contains "failed", compared code unit by code unit.  With progress
    0 and a text without "failed" nothing is raised and nothing reloaded;
    with another progress no failure is raised, whatever the text. *)
Theorem failure_iff_progress_0_and_failed data timestamp d :
  let r := on_site_creation_progress __ data timestamp d in
  ((exists text, In (show_alert text red) (emitted r)) <->
   progress data = JNum 0 /\ message_contains data (lit "failed"))
  /\ (progress data = JNum 0 ->
      message_contains data (lit "failed") ->
      emitted r =
        [show_alert
           (__ (lit "Site creation failed: " ++ ToString (message data)))
           red]
      /\ completion r = Normal tt)
  /\ (progress data = JNum 0 ->
      ~ message_contains data (lit "failed") ->
      emitted r = []
      /\ (forall text, message data = JStr text ->
                       completion r = Normal tt))
  /\ (progress data <> JNum 0 ->
      forall text, ~ In (show_alert text red) (emitted r)).
Proof.
  assert (at_0_with :
    progress data = JNum 0 -> message_contains data (lit "failed") ->
    on_site_creation_progress __ data timestamp d =
      (presented data timestamp d,
       [show_alert
          (__ (lit "Site creation failed: " ++ ToString (message data)))
          red],
       Normal tt)).
  { intros Hp (text & Hm & Hc). apply includes_contains in Hc.
    rewrite (listener_at_0_string _ _ _ text Hp Hm), Hc, Hm.
    reflexivity. }
  assert (at_0_without :
    progress data = JNum 0 -> ~ message_contains data (lit "failed") ->
    emitted (on_site_creation_progress __ data timestamp d) = []
    /\ (forall text, message data = JStr text ->
                     completion (on_site_creation_progress __ data timestamp d) = Normal tt)).
  { intros Hp Hno. destruct (message data) eqn:Hm;
      try (rewrite listener_at_0_other;
           [split; [reflexivity | intros t [=]]
           | assumption | intros t; congruence]).
    rewrite (listener_at_0_string _ _ _ s Hp Hm).
    destruct (includes s (lit "failed")) eqn:Hc.
    - exfalso. apply Hno. exists s. split; [assumption|].
      now apply includes_contains.
    - split; [reflexivity | intros; reflexivity]. }
  assert (not_at_0 :
    progress data <> JNum 0 ->
    forall text, ~ In (show_alert text red)
                      (emitted (on_site_creation_progress __ data timestamp d))).
  { intros Hp text.
    destruct (strict_eq (progress data) (JNum 100)) eqn:E100.
    - apply strict_eq_num in E100. rewrite listener_at_100 by assumption.
      simpl. intros [H | [H | []]]; discriminate.
    - apply strict_eq_num_false in E100.
      rewrite listener_between by assumption. simpl. tauto. }
  cbv zeta. split; [|split; [|split]].
  - split.
    + intros [text Hin].
      destruct (strict_eq (progress data) (JNum 0)) eqn:E0.
      * apply strict_eq_num in E0. split; [assumption|].
        destruct (message data) eqn:Hm;
          try (rewrite listener_at_0_other in Hin;
               [destruct Hin | assumption | intros t; congruence]).
        rewrite (listener_at_0_string _ _ _ s E0 Hm) in Hin.
        destruct (includes s (lit "failed")) eqn:Hc; [|destruct Hin].
        exists s. split; [assumption | now apply includes_contains].
      * apply strict_eq_num_false in E0. now destruct (not_at_0 E0 text).
    + intros [Hp Hc]. rewrite (at_0_with Hp Hc). eexists. now left.
  - intros Hp Hc. now rewrite (at_0_with Hp Hc).
  - exact at_0_without.
  - exact not_at_0.
Qed.

(** C5, against the code: a message with progress 0 whose text is absent.
    The presenter is updated, with the empty text that the guard
    [data.message || ''] of the first statement puts in its place; then the
    test for failure reads [includes] of the absent text, without the
    guard, and throws: the listener does not return. *)
Theorem progress_0_without_message_throws data timestamp d :
  message data = JUndefined ->
  progress data = JNum 0 ->
  on_site_creation_progress __ data timestamp d =
    (update_progress (JNum 0) (JStr []) timestamp d, [], Throw TypeError).
Proof.
  intros Hm Hp. rewrite listener_at_0_other.
  - unfold presented. rewrite Hm, Hp. reflexivity.
  - exact Hp.
  - intros text. rewrite Hm. discriminate.
Qed.

(** With the text absent the listener throws exactly at progress 0. *)
Lemma absent_message_throws_iff data timestamp d :
  message data = JUndefined ->
  (completion (on_site_creation_progress __ data timestamp d) = Throw TypeError <->
   progress data = JNum 0).
Proof.
  intros Hm. split.
  - intros H. destruct (strict_eq (progress data) (JNum 0)) eqn:E0;
      [now apply strict_eq_num in E0|].
    apply strict_eq_num_false in E0.
    destruct (strict_eq (progress data) (JNum 100)) eqn:E100.
    + apply strict_eq_num in E100.
      rewrite listener_at_100 in H by assumption. discriminate.
    + apply strict_eq_num_false in E100.
      rewrite listener_between in H by assumption. discriminate.
  - intros Hp. rewrite listener_at_0_other; [reflexivity | assumption |].
    intros t. congruence.
Qed.

(** The calls the listener can make, and when. *)
Lemma listener_emits data timestamp d e :
  In e (emitted (on_site_creation_progress __ data timestamp d)) ->
  (progress data = JNum 100
   /\ (e = reload_doc
       \/ e = show_alert (__ (lit "Site created successfully!")) green))
  \/ (progress data = JNum 0
      /\ message_contains data (lit "failed")
      /\ e = show_alert
               (__ (lit "Site creation failed: " ++ ToString (message data)))
               red).
Proof.
  intros Hin.
  destruct (strict_eq (progress data) (JNum 100)) eqn:E100.
  - apply strict_eq_num in E100. rewrite listener_at_100 in Hin by assumption.
    left. split; [assumption|].
    destruct Hin as [<- | [<- | []]]; [now left | now right].
  - apply strict_eq_num_false in E100.
    destruct (strict_eq (progress data) (JNum 0)) eqn:E0.
    + apply strict_eq_num in E0. right. split; [assumption|].
      destruct (message data) eqn:Hm;
        try (rewrite listener_at_0_other in Hin;
             [destruct Hin | assumption | intros t; congruence]).
      rewrite (listener_at_0_string _ _ _ s E0 Hm) in Hin.
      destruct (includes s (lit "failed")) eqn:Hc; [|destruct Hin].
      split.
      * exists s. split; [assumption | now apply includes_contains].
      * destruct Hin as [<- | []]. reflexivity.
    + apply strict_eq_num_false in E0.
      rewrite listener_between in Hin by assumption. destruct Hin.
Qed.

Lemma deliver_all_emits events d e :
  In e (snd (deliver_all __ events d)) ->
  exists data timestamp d',
    In (data, timestamp) events
    /\ In e (emitted (on_site_creation_progress __ data timestamp d')).
Proof.
  revert d. induction events as [|[data timestamp] events IH]; intros d Hin.
  - destruct Hin.
  - simpl in Hin.
    destruct (deliver_all __ events
                (dialog_of (on_site_creation_progress __ data timestamp d)))
      as [d' out] eqn:E.
    simpl in Hin. apply in_app_or in Hin. destruct Hin as [Hin | Hin].
    + exists data, timestamp, d. split; [now left | assumption].
    + destruct (IH (dialog_of (on_site_creation_progress __ data timestamp d)))
        as (data' & timestamp' & d'' & Hev & He).
      { rewrite E. assumption. }
      exists data', timestamp', d''. split; [now right | assumption].
Qed.


(** With a body whose success flag is false or absent (any falsy value)
    the failure is reported: the presenter shows 0% and the text "Failed to
    start site creation: " followed by the server's message, or by "Unknown
    error" when there is none; the same text is raised as a red alert;
    nothing is reloaded and the dialog is not hidden. *)
Lemma failed_start_is_reported reply timestamp d :
  truthy (success reply) = false ->
  let text :=
    lit "Failed to start site creation: "
    ++ ToString (js_or (reply_message reply) (JStr (lit "Unknown error"))) in
  let r := create_site_callback __ (Some reply) timestamp d in
  dialog_of r = update_progress (JNum 0) (JStr text) timestamp d
  /\ bar_width (dialog_of r) = lit "0%"
  /\ progress_text (dialog_of r) = text
  /\ emitted r = [show_alert (__ text) red]
  /\ ~ In reload_doc (emitted r)
  /\ ~ In dialog_hide (emitted r)
  /\ completion r = Normal tt.
Proof.
  intros Hs. cbv zeta. unfold create_site_callback. rewrite Hs.
  unfold bind, modify, emit, dialog_of, emitted, completion. simpl.
  repeat split; try reflexivity; intros [H | []]; discriminate.
Qed.

(** C6, against the code: a response of the start call without a body.
    It has no success flag, so the test [r.message && r.message.success]
    fails and the else branch is taken, as for a flag that is false; there
    [r.message.message] is read without the guard, and the callback throws
    before the presenter is updated and before any alert is raised. *)
Theorem start_without_body_throws timestamp d :
  let r := create_site_callback __ None timestamp d in
  completion r = Throw TypeError
  /\ dialog_of r = d
  /\ emitted r = []
  /\ ~ (exists text, In (show_alert text red) (emitted r)).
Proof.
  cbv zeta. unfold create_site_callback, lift.
  unfold completion, dialog_of, emitted. simpl.
  split; [reflexivity | split; [reflexivity | split; [reflexivity|]]].
  intros [text []].
Qed.

(** C7, as the code has it.  When the success flag of the response is
    truthy the presenter shows 5% and "Site creation process started...",
    and the callback reloads nothing and notifies nothing.  Of the messages
    that arrive afterwards, only one with progress 100 reloads the record
    or raises the green notification; the red notification is raised by a
    message with progress 0 whose text contains "failed", and by no
    other. *)
Theorem started_then_terminal_only_from_events reply timestamp d events :
  truthy (success reply) = true ->
  let r := create_site_callback __ (Some reply) timestamp d in
  let later := snd (deliver_all __ events (dialog_of r)) in
  dialog_of r =
    update_progress (JNum 5) (JStr (lit "Site creation process started..."))
                    timestamp d
  /\ emitted r = []
  /\ completion r = Normal tt
  /\ ((forall ev, In ev events -> progress (fst ev) <> JNum 100) ->
      forall e, In e later -> is_reload e = false /\ is_green_alert e = false)
  /\ (forall e, In e later -> is_red_alert e = true ->
      exists ev, In ev events
                 /\ progress (fst ev) = JNum 0
                 /\ message_contains (fst ev) (lit "failed")).
Proof.
  intros Hs. cbv zeta.
  assert (Hr : create_site_callback __ (Some reply) timestamp d =
               (update_progress (JNum 5)
                  (JStr (lit "Site creation process started..."))
                  timestamp d, [], Normal tt)).
  { unfold create_site_callback. rewrite Hs. reflexivity. }
  rewrite Hr. unfold dialog_of, emitted, completion. simpl fst. simpl snd.
  repeat split; try reflexivity.
  - destruct (deliver_all_emits _ _ _ H0) as (data & ts & d' & Hev & He).
    apply listener_emits in He.
    destruct He as [[Hp _] | (_ & _ & ->)]; [|reflexivity].
    now destruct (H _ Hev).
  - destruct (deliver_all_emits _ _ _ H0) as (data & ts & d' & Hev & He).
    apply listener_emits in He.
    destruct He as [[Hp _] | (_ & _ & ->)]; [|reflexivity].
    now destruct (H _ Hev).
  - intros e Hin Hred.
    destruct (deliver_all_emits _ _ _ Hin) as (data & ts & d' & Hev & He).
    apply listener_emits in He.
    destruct He as [[_ [-> | ->]] | (Hp & Hc & _)]; try discriminate.
    exists (data, ts). auto.
Qed.




(** C4, as the code has it.  For a percentage that is an integer,
    [update_progress] sets the width of the bar to the percentage followed
    by "%", with a negative percentage raised to 0 by jQuery's setter of
    widths and a percentage above 100 left as it is: the gauge is the
    percentage brought into 0..100 exactly when the percentage is at most
    100. *)
Theorem gauge_shows_percentage_as_given n text timestamp d :
  is_safe_integer n = true ->
  bar_width (update_progress (JNum n) text timestamp d)
  = ToString (JNum (Z.max 0 n)) ++ lit "%"
  /\ (bar_width (update_progress (JNum n) text timestamp d)
      = spec_clamped_gauge n
      <-> (n <= 100)%Z).
Proof.
  intros _. split; [reflexivity|].
  unfold spec_clamped_gauge, spec_clamp, js_concat.
  cbn [update_progress bar_width css_width ToString]. split.
  - intros H. apply app_inv_tail in H. apply Z_to_jsstring_inj in H. lia.
  - intros H. do 2 f_equal. lia.
Qed.

(** C3. When the custom domain, the instance or the package of the record
    is empty or missing (falsy), [create_site_with_progress] shows one
    message and returns: the message of the first of the three, in this
    order, that is missing.  No confirmation is asked and no call is made;
    on the page no prompt is open afterwards, so that the launch cannot go
    on. *)
Theorem launch_without_required_field_aborts doc :
  truthy (custom_domain doc) = false
  \/ truthy (instance doc) = false
  \/ truthy (package doc) = false ->
  let text :=
    if negb (truthy (custom_domain doc))
    then lit "Custom Domain is required to create site"
    else if negb (truthy (instance doc))
    then lit "Instance is required to create site"
    else lit "Package is required to create site" in
  create_site_with_progress __ doc = [msgprint (__ text)]
  /\ filter is_confirm (create_site_with_progress __ doc) = []
  /\ filter is_call (create_site_with_progress __ doc) = []
  /\ (forall p p',
       frm_doc p = doc ->
       step __ p click_create_site = Some p' ->
       trace p' = trace p ++ [msgprint (__ text)]
       /\ prompt_open p' = false
       /\ in_flight p' = in_flight p
       /\ forall yes, step __ p' (answer yes) = None).
Proof.
  intros H. cbv zeta.
  assert (E : create_site_with_progress __ doc =
    [msgprint (__ (if negb (truthy (custom_domain doc))
                   then lit "Custom Domain is required to create site"
                   else if negb (truthy (instance doc))
                   then lit "Instance is required to create site"
                   else lit "Package is required to create site"))]).
  { unfold create_site_with_progress.
    destruct (truthy (custom_domain doc)); [|reflexivity].
    destruct (truthy (instance doc)); [|reflexivity].
    destruct (truthy (package doc)); [|reflexivity].
    destruct H as [H | [H | H]]; discriminate. }
  rewrite E. repeat split.
  - unfold step in H1.
    destruct (strict_eq (status (frm_doc p)) (JStr (lit "Active"))
              && negb (prompt_open p)
              && match progress_dialog p with
                 | None => true | Some _ => false end); [|discriminate].
    injection H1 as <-. rewrite H0, E. reflexivity.
  - unfold step in H1.
    destruct (strict_eq (status (frm_doc p)) (JStr (lit "Active"))) ;
      [|discriminate].
    destruct (prompt_open p) eqn:Hopen; [discriminate|].
    destruct (progress_dialog p); [discriminate|].
    injection H1 as <-. rewrite H0, E. simpl. now rewrite Hopen.
  - unfold step in H1.
    destruct (strict_eq (status (frm_doc p)) (JStr (lit "Active"))
              && negb (prompt_open p)
              && match progress_dialog p with
                 | None => true | Some _ => false end); [|discriminate].
    injection H1 as <-. rewrite H0, E. simpl. apply orb_false_r.
  - unfold step in H1.
    destruct (strict_eq (status (frm_doc p)) (JStr (lit "Active"))) ;
      [|discriminate].
    destruct (prompt_open p) eqn:Hopen; [discriminate|].
    destruct (progress_dialog p); [discriminate|].
    injection H1 as <-. rewrite H0, E. intros yes. simpl.
    now rewrite Hopen.
Qed.

(** *** The page: what the framework has registered *)

Lemma registers_listener : is_listen (realtime_on progress_channel) = true.
Proof. vm_compute. reflexivity. Qed.

Lemma perform_all_listening p es :
  listening (perform_all p es) = listening p || existsb is_listen es.
Proof.
  unfold perform_all. revert p.
  induction es as [|e es IH]; intros p; simpl.
  - now rewrite orb_false_r.
  - rewrite IH. simpl. now rewrite orb_assoc.
Qed.

Lemma perform_all_in_flight p es :
  in_flight (perform_all p es) = in_flight p || existsb is_call es.
Proof.
  unfold perform_all. revert p.
  induction es as [|e es IH]; intros p; simpl.
  - now rewrite orb_false_r.
  - rewrite IH. simpl. now rewrite orb_assoc.
Qed.

Lemma listener_issues_no_call data timestamp d :
  existsb is_call (emitted (on_site_creation_progress __ data timestamp d))
  = false.
Proof.
  destruct (existsb is_call _) eqn:E; [|reflexivity].
  apply existsb_exists in E. destruct E as (e & Hin & He).
  apply listener_emits in Hin.
  destruct Hin as [[_ [-> | ->]] | (_ & _ & ->)]; discriminate.
Qed.

Lemma callback_issues_no_call r_message timestamp d :
  existsb is_call (emitted (create_site_callback __ r_message timestamp d))
  = false.
Proof.
  unfold create_site_callback. destruct r_message as [reply|];
    [|reflexivity].
  destruct (truthy (success reply)); reflexivity.
Qed.

Lemma first_checks_issue_no_call doc :
  existsb is_call (create_site_with_progress __ doc) = false.
Proof.
  unfold create_site_with_progress.
  destruct (truthy (custom_domain doc)); [|reflexivity].
  destruct (truthy (instance doc)); [|reflexivity].
  destruct (truthy (package doc)); reflexivity.
Qed.

Lemma step_keeps_listener p i p' :
  step __ p i = Some p' ->
  listener_before_response p -> listener_before_response p'.
Proof.
  unfold listener_before_response. intros Hstep Inv.
  destruct i as [|yes|data timestamp|r_message timestamp|]; simpl in Hstep.
  - destruct (_ && _) in Hstep; [|discriminate]. injection Hstep as <-.
    rewrite perform_all_listening, perform_all_in_flight,
      first_checks_issue_no_call, orb_false_r.
    intros H. rewrite (Inv H). reflexivity.
  - destruct (prompt_open p); [|discriminate].
    destruct yes; injection Hstep as <-; [|exact Inv].
    intros _. change (listening (perform_all
                                   (with_dialog (close_prompt p) new_dialog)
                                   (snd (start_site_creation (frm_doc p))))
                      = true).
    rewrite perform_all_listening. unfold start_site_creation.
    cbn [snd existsb]. rewrite registers_listener.
    now rewrite orb_true_r.
  - destruct (listening p) eqn:L;
      [|injection Hstep as <-; intros H; rewrite L; exact (Inv H)].
    destruct (progress_dialog p); [|discriminate]. injection Hstep as <-.
    rewrite perform_all_listening. simpl. now rewrite L.
  - destruct (in_flight p) eqn:F; [|discriminate].
    destruct (progress_dialog p); [|discriminate]. injection Hstep as <-.
    rewrite perform_all_listening, perform_all_in_flight,
      callback_issues_no_call. simpl. discriminate.
  - destruct (progress_dialog p); [|discriminate]. injection Hstep as <-.
    simpl. rewrite !orb_false_r. exact Inv.
Qed.

Lemma run_keeps_listener inputs p p' :
  run __ p inputs = Some p' ->
  listener_before_response p -> listener_before_response p'.
Proof.
  revert p. induction inputs as [|i inputs IH]; intros p Hrun Inv.
  - injection Hrun as <-. exact Inv.
  - simpl in Hrun. destruct (step __ p i) as [q|] eqn:Hstep; [|discriminate].
    apply (IH q Hrun). exact (step_keeps_listener _ _ _ Hstep Inv).
Qed.

(** C9. [start_site_creation] shows the dialog, registers the listener
    and issues the start call in one run and in this order: no call is
    issued before the listener is registered.  So on every page reached
    from a fresh form a start call that awaits its response has its
    listener registered, and whenever the response of the start call is
    handled the listener is already there. *)
Theorem listener_registered_before_start_call doc inputs p :
  run __ (fresh doc) inputs = Some p ->
  (exists before between after,
      snd (start_site_creation doc) =
        before ++ realtime_on progress_channel :: between
        ++ call create_site_method (name doc) :: after
      /\ In dialog_show before
      /\ existsb is_call (before ++ between) = false
      /\ existsb is_call after = false)
  /\ (in_flight p = true -> listening p = true)
  /\ (forall r_message timestamp p',
        step __ p (response r_message timestamp) = Some p' ->
        listening p = true).
Proof.
  intros Hrun. split; [|split].
  - exists [dialog_show], [], []. repeat split. now left.
  - apply (run_keeps_listener _ _ _ Hrun). intros F; discriminate.
  - intros r_message timestamp p' Hstep. simpl in Hstep.
    destruct (in_flight p) eqn:F; [|discriminate].
    now apply (run_keeps_listener _ _ _ Hrun); [intros F'; discriminate|].
Qed.

End SiteCreationFacts.

(** ** The suggested custom domain *)

Section DomainSuggestionFacts.

Import CustomerRequest.

Variable toLowerCase : jsstring -> jsstring.

Lemma blocks_head p c s :
  exists block rest, blocks p (c :: s) = (p c, block) :: rest.
Proof.
  simpl. destruct (blocks p s) as [|[side block] rest].
  - now exists [c], [].
  - destruct (Bool.eqb side (p c)) eqn:E.
    + apply eqb_prop in E. subst side. now exists (c :: block), rest.
    + now exists [c], ((side, block) :: rest).
Qed.

(** A block that starts inside the class is the character and what [p+]
    goes on to match; the blocks of the rest follow. *)
Lemma blocks_in_class p c s :
  p c = true ->
  blocks p (c :: s) = (true, c :: fst (span p s)) :: blocks p (snd (span p s)).
Proof.
  revert c. induction s as [|c' s IH]; intros c Hc.
  - simpl. now rewrite Hc.
  - cbn [span]. destruct (p c') eqn:Hc'.
    + specialize (IH c' Hc'). destruct (span p s) as [run rest] eqn:Es.
      cbn [fst snd] in *. cbn [blocks] in *. rewrite IH, Hc. reflexivity.
    + cbn [fst snd].
      destruct (blocks_head p c' s) as (block & rest & E).
      change (blocks p (c :: c' :: s)) with
        (match blocks p (c' :: s) with
         | (side, block) :: rest =>
             if Bool.eqb side (p c) then (side, c :: block) :: rest
             else (p c, [c]) :: (side, block) :: rest
         | [] => [(p c, [c])]
         end).
      rewrite E, Hc', Hc. reflexivity.
Qed.

Lemma blocks_replace_in_class p by_ c s :
  p c = true ->
  List.concat (map (fun b : bool * jsstring => if fst b then by_ else snd b)
                   (blocks p (c :: s)))
  = by_ ++ List.concat
             (map (fun b : bool * jsstring => if fst b then by_ else snd b)
                  (blocks p (snd (span p s)))).
Proof.
  intros Hc. rewrite blocks_in_class by assumption. reflexivity.
Qed.

Lemma blocks_replace_outside p by_ c s :
  p c = false ->
  List.concat (map (fun b : bool * jsstring => if fst b then by_ else snd b)
                   (blocks p (c :: s)))
  = c :: List.concat
           (map (fun b : bool * jsstring => if fst b then by_ else snd b)
                (blocks p s)).
Proof.
  intros Hc. cbn [blocks]. destruct (blocks p s) as [|[side block] rest].
  - rewrite Hc. reflexivity.
  - rewrite Hc. destruct side; reflexivity.
Qed.

(** The scan of [replace] and the replacement block by block agree. *)
Lemma replace_plus_by_blocks p by_ s :
  replace_plus p by_ s =
  List.concat (map (fun b : bool * jsstring => if fst b then by_ else snd b)
                   (blocks p s)).
Proof.
  funelim (replace_plus p by_ s).
  - reflexivity.
  - rewrite blocks_replace_in_class by assumption. now f_equal.
  - rewrite blocks_replace_outside by assumption. now f_equal.
Qed.

Lemma suggested_domain_refines text :
  suggested_domain toLowerCase text
  = spec_suggested_domain (toLowerCase text).
Proof.
  unfold suggested_domain, spec_suggested_domain, substring_from_0,
    remove_class, spec_hyphenate_runs.
  rewrite replace_plus_by_blocks. f_equal. apply filter_ext.
  intros c. unfold not_domain_char, spec_is_kept. apply negb_involutive.
Qed.

(** C10. For a customer name that is a non-empty string: when the custom
    domain of the form is empty, the suggestion is the name lower-cased,
    each run of whitespace replaced by one hyphen, every character that is
    not an ASCII letter, a digit or a hyphen removed, cut to 20 characters
    at most; the field is set to it, and the preview shown, when it is not
    empty, and nothing is set when it is empty.  When the custom domain is
    not empty nothing is suggested and the form stays as it is. *)
Theorem custom_domain_is_suggested_from_name doc text :
  customer_name doc = JStr text ->
  text <> [] ->
  let suggestion := spec_suggested_domain (toLowerCase text) in
  List.length suggestion <= 20
  /\ forallb spec_is_kept suggestion = true
  /\ customer_name_handler toLowerCase doc =
     if truthy (custom_domain doc) then Normal (doc, [])
     else match suggestion with
          | [] => Normal (doc, [])
          | _ :: _ =>
              Normal ({| customer_name := JStr text;
                         custom_domain := JStr suggestion |},
                      [set_value (lit "custom_domain") suggestion;
                       show_domain_preview])
          end.
Proof.
  intros Hname Htext. cbv zeta. split; [|split].
  - unfold spec_suggested_domain. apply firstn_le_length.
  - unfold spec_suggested_domain. apply forallb_forall. intros c Hin.
    assert (Hin' : In c (filter spec_is_kept
                            (spec_hyphenate_runs (toLowerCase text)))).
    { rewrite <- (firstn_skipn 20 (filter _ _)). apply in_or_app.
      now left. }
    apply filter_In in Hin'. tauto.
  - unfold customer_name_handler. rewrite Hname.
    destruct text as [|c text]; [congruence|]. cbn [truthy andb].
    destruct (truthy (custom_domain doc)); cbn [negb]; [reflexivity|].
    rewrite suggested_domain_refines.
    destruct (spec_suggested_domain (toLowerCase (c :: text)));
      reflexivity.
Qed.

End DomainSuggestionFacts.

(** ** The properties at concrete inputs *)

Module Concrete.

Import CustomerSite.

Lemma progress_100_is_success_witness :
  let data := {| progress := JNum 100;
                 message := JStr (lit "cleanup failed") |} in
  progress data = JNum 100
  /\ on_site_creation_progress untranslated data (lit "10:04:31") new_dialog
     = (update_progress (JNum 100) (JStr (lit "cleanup failed"))
                        (lit "10:04:31") new_dialog,
        [reload_doc; show_alert (lit "Site created successfully!") green],
        Normal tt).
Proof.
  cbv zeta. split; [reflexivity|].
  apply (progress_100_is_success untranslated
           {| progress := JNum 100; message := JStr (lit "cleanup failed") |}
           (lit "10:04:31") new_dialog).
  reflexivity.
Defined.

Lemma failure_iff_progress_0_and_failed_witness :
  let data := {| progress := JNum 0;
                 message := JStr (lit "retry failed") |} in
  let r := on_site_creation_progress untranslated data (lit "10:02:10")
             new_dialog in
  progress data = JNum 0
  /\ message_contains data (lit "failed")
  /\ emitted r = [show_alert (lit "Site creation failed: retry failed") red]
  /\ completion r = Normal tt.
Proof.
  cbv zeta.
  assert (Hp : progress {| progress := JNum 0;
                           message := JStr (lit "retry failed") |} = JNum 0)
    by reflexivity.
  assert (Hc : message_contains
                 {| progress := JNum 0;
                    message := JStr (lit "retry failed") |} (lit "failed")).
  { exists (lit "retry failed"). split; [reflexivity|].
    exists (lit "retry "), []. reflexivity. }
  split; [exact Hp | split; [exact Hc|]].
  exact (proj1 (proj2 (failure_iff_progress_0_and_failed untranslated
                         {| progress := JNum 0;
                            message := JStr (lit "retry failed") |}
                         (lit "10:02:10") new_dialog)) Hp Hc).
Defined.

Lemma failed_start_is_reported_witness :
  let reply := {| success := JBool false;
                  reply_message := JStr (lit "quota exceeded") |} in
  let r := create_site_callback untranslated (Some reply) (lit "10:00:02")
             new_dialog in
  truthy (success reply) = false
  /\ bar_width (dialog_of r) = lit "0%"
  /\ progress_text (dialog_of r)
     = lit "Failed to start site creation: quota exceeded"
  /\ emitted r =
     [show_alert (lit "Failed to start site creation: quota exceeded") red].
Proof.
  cbv zeta. split; [reflexivity|].
  pose proof (failed_start_is_reported untranslated
                {| success := JBool false;
                   reply_message := JStr (lit "quota exceeded") |}
                (lit "10:00:02") new_dialog eq_refl) as H.
  cbv zeta in H. destruct H as (_ & Hbar & Htext & Hout & _).
  split; [exact Hbar | split; [exact Htext | exact Hout]].
Defined.

Lemma progress_0_without_message_throws_witness :
  let data := {| progress := JNum 0; message := JUndefined |} in
  message data = JUndefined
  /\ progress data = JNum 0
  /\ completion (on_site_creation_progress untranslated data
                   (lit "10:00:01") new_dialog)
     = Throw TypeError.
Proof.
  cbv zeta. split; [reflexivity | split; [reflexivity|]].
  rewrite (progress_0_without_message_throws untranslated
             {| progress := JNum 0; message := JUndefined |}
             (lit "10:00:01") new_dialog eq_refl eq_refl).
  reflexivity.
Defined.

(** C7 as it is stated fails: after a successful start a message with
    progress 0 and the text "retry failed" raises the red notification,
    and no message with progress 100 has arrived. *)
Lemma failure_is_notified_without_100 :
  ~ spec_silent_until_100 untranslated
      {| success := JBool true; reply_message := JUndefined |}
      (lit "10:00:02")
      [({| progress := JNum 0; message := JStr (lit "retry failed") |},
        lit "10:02:10")]
      new_dialog.
Proof.
  unfold spec_silent_until_100. intros H.
  specialize (H eq_refl).
  assert (no_100 : forall ev,
            In ev [({| progress := JNum 0;
                       message := JStr (lit "retry failed") |},
                    lit "10:02:10")] ->
            progress (fst ev) <> JNum 100).
  { intros ev [<- | []]. discriminate. }
  specialize (H no_100). vm_compute in H. discriminate.
Qed.

Lemma started_then_terminal_only_from_events_witness :
  let reply := {| success := JBool true; reply_message := JUndefined |} in
  let r := create_site_callback untranslated (Some reply) (lit "10:00:02")
             new_dialog in
  truthy (success reply) = true
  /\ bar_width (dialog_of r) = lit "5%"
  /\ progress_text (dialog_of r) = lit "Site creation process started..."
  /\ emitted r = [].
Proof.
  cbv zeta. split; [reflexivity|].
  pose proof (started_then_terminal_only_from_events untranslated
                {| success := JBool true; reply_message := JUndefined |}
                (lit "10:00:02") new_dialog [] eq_refl) as H.
  cbv zeta in H. destruct H as (Hd & Hout & _).
  rewrite Hd. split; [reflexivity | split; [reflexivity | exact Hout]].
Defined.

(** C4 as it is stated fails: given 150 the bar is set to "150%", not to
    "100%". *)
Lemma gauge_at_150_is_not_clamped :
  bar_width (update_progress (JNum 150) (JStr (lit "Installing apps"))
                             (lit "10:03:00") new_dialog)
  <> spec_clamped_gauge 150.
Proof.
  vm_compute. discriminate.
Qed.

Lemma gauge_shows_percentage_as_given_witness :
  is_safe_integer (-5) = true
  /\ bar_width (update_progress (JNum (-5)) (JStr (lit "Installing apps"))
                                (lit "10:03:00") new_dialog)
     = lit "0%"
  /\ bar_width (update_progress (JNum (-5)) (JStr (lit "Installing apps"))
                                (lit "10:03:00") new_dialog)
     = spec_clamped_gauge (-5).
Proof.
  assert (S : is_safe_integer (-5) = true) by reflexivity.
  assert (R : (-5 <= 100)%Z) by lia.
  split; [exact S | split].
  - exact (proj1 (gauge_shows_percentage_as_given (-5)%Z
                    (JStr (lit "Installing apps")) (lit "10:03:00")
                    new_dialog S)).
  - exact (proj2 (proj2 (gauge_shows_percentage_as_given (-5)%Z
                           (JStr (lit "Installing apps")) (lit "10:03:00")
                           new_dialog S)) R).
Defined.


Example line_with_markup_shows :
  progress_log
    (render_all [(JNum 10, JStr (lit "a<b"), lit "10:03:00")] new_dialog)
  = [Some (lit "[10:03:00] a")].
Proof. reflexivity. Qed.

Example line_with_less_than_sign :
  progress_log
    (render_all [(JNum 10, JStr (lit "5 < 10"), lit "10:03:00")] new_dialog)
  = [Some (lit "[10:03:00] 5 < 10" ++ newline)].
Proof. reflexivity. Qed.


Lemma launch_without_required_field_aborts_witness :
  (truthy (custom_domain site_without_instance) = false
   \/ truthy (instance site_without_instance) = false
   \/ truthy (package site_without_instance) = false)
  /\ create_site_with_progress untranslated site_without_instance
     = [msgprint (lit "Instance is required to create site")].
Proof.
  assert (H : truthy (custom_domain site_without_instance) = false
              \/ truthy (instance site_without_instance) = false
              \/ truthy (package site_without_instance) = false)
    by (right; left; reflexivity).
  split; [exact H|].
  exact (proj1 (launch_without_required_field_aborts untranslated
                  site_without_instance H)).
Defined.

Lemma listener_registered_before_start_call_witness :
  exists p,
    run untranslated (fresh acme_site) acme_launch = Some p
    /\ in_flight p = true
    /\ listening p = true.
Proof.
  destruct (run untranslated (fresh acme_site) acme_launch) as [p|] eqn:E;
    [|vm_compute in E; discriminate].
  exists p. split; [reflexivity|].
  assert (F : in_flight p = true).
  { vm_compute in E. injection E as <-. reflexivity. }
  split; [exact F|].
  exact (proj1 (proj2 (listener_registered_before_start_call untranslated
                         acme_site acme_launch p E)) F).
Defined.

Example retry_then_done_calls :
  snd (deliver_all untranslated retry_then_done new_dialog) =
    [show_alert (lit "Site creation failed: retry failed") red;
     reload_doc;
     show_alert (lit "Site created successfully!") green].
Proof. reflexivity. Qed.

Example retry_then_done_log :
  progress_log (fst (deliver_all untranslated retry_then_done new_dialog)) =
    [Some (lit "[10:00:01] provisioning" ++ newline);
     Some (lit "[10:02:10] retry failed" ++ newline);
     Some (lit "[10:04:31] done" ++ newline)].
Proof. reflexivity. Qed.

Example acme_launch_trace :
  option_map trace (run untranslated (fresh acme_site) acme_launch) =
    Some [confirm (lit "Are you sure you want to create the site? This process may take several minutes.");
          dialog_show;
          realtime_on progress_channel;
          call create_site_method (JStr (lit "acme-site"))].
Proof. reflexivity. Qed.

Lemma custom_domain_is_suggested_from_name_witness :
  CustomerRequest.customer_name CustomerRequest.acme_request
  = JStr (lit "Acme  Corp, Inc. (Holdings) Limited")
  /\ lit "Acme  Corp, Inc. (Holdings) Limited" <> []
  /\ CustomerRequest.customer_name_handler
       CustomerRequest.ascii_toLowerCase CustomerRequest.acme_request
     = Normal
         ({| CustomerRequest.customer_name :=
               JStr (lit "Acme  Corp, Inc. (Holdings) Limited");
             CustomerRequest.custom_domain :=
               JStr (lit "acme-corp-inc-holdin") |},
          [set_value (lit "custom_domain") (lit "acme-corp-inc-holdin");
           show_domain_preview]).
Proof.
  assert (N : lit "Acme  Corp, Inc. (Holdings) Limited" <> [])
    by (vm_compute; discriminate).
  split; [reflexivity | split; [exact N|]].
  exact (proj2 (proj2 (custom_domain_is_suggested_from_name
                         CustomerRequest.ascii_toLowerCase
                         CustomerRequest.acme_request
                         (lit "Acme  Corp, Inc. (Holdings) Limited")
                         eq_refl N))).
Defined.

End Concrete.

(** * Further properties of the scripts *)

(** ** The preview of the full domain *)

Section DomainPreviewFacts.

Import DomainPreview.

Lemma endsWith_suffix (s suffix : jsstring) :
  endsWith s suffix = true <-> exists before, s = before ++ suffix.
Proof.
  unfold endsWith. destruct (Nat.ltb_spec (List.length s) (List.length suffix))
    as [Hlt | Hge].
  - split; [discriminate|]. intros [before ->].
    rewrite length_app in Hlt. lia.
  - rewrite jsstring_eqb_eq. split.
    + remember (List.length s - List.length suffix) as n eqn:En.
      intros H. exists (firstn n s). rewrite <- H. symmetry.
      apply firstn_skipn.
    + intros [before ->]. rewrite length_app.
      replace (List.length before + List.length suffix - List.length suffix)
        with (List.length before) by lia.
      rewrite skipn_app, skipn_all, Nat.sub_diag. reflexivity.
Qed.

Lemma app_nonempty_differs (s t : jsstring) : t <> [] -> s ++ t <> s.
Proof.
  intros Ht H. apply (f_equal (@List.length N)) in H.
  rewrite length_app in H. destruct t; [congruence | simpl in H; lia].
Qed.

(** X1. The full domain of the preview always ends with ".ibssaas.com";
    it is the custom domain itself exactly when that already ends so, and
    computing it again from its own result changes nothing: the suffix is
    never doubled. *)
Theorem full_domain_has_suffix_once (custom_domain : jsstring) :
  endsWith (full_domain custom_domain) domain_suffix = true
  /\ (exists before, full_domain custom_domain = before ++ domain_suffix)
  /\ (full_domain custom_domain = custom_domain
      <-> endsWith custom_domain domain_suffix = true)
  /\ full_domain (full_domain custom_domain) = full_domain custom_domain.
Proof.
  assert (ends : endsWith (full_domain custom_domain) domain_suffix = true).
  { unfold full_domain.
    destruct (endsWith custom_domain domain_suffix) eqn:E; simpl.
    - exact E.
    - apply endsWith_suffix. now exists custom_domain. }
  split; [exact ends | split; [now apply endsWith_suffix | split]].
  - unfold full_domain.
    destruct (endsWith custom_domain domain_suffix) eqn:E; simpl.
    + split; reflexivity.
    + split; [|discriminate]. intros H. exfalso.
      apply (app_nonempty_differs custom_domain domain_suffix);
        [discriminate | exact H].
  - unfold full_domain at 1. now rewrite ends.
Qed.

(** X2. For a custom domain without markup (no ["<"], no ["&"]),
    [show_domain_preview] does not pile up previews: on a page with at
    most one preview there is at most one afterwards.  With a non-empty
    custom domain and the field on the page it is the preview of the full
    domain of the current value; with an empty or missing custom domain,
    or without the field, no preview is left. *)
Theorem preview_is_replaced (custom_domain : JsVal) (page : Document) :
  (forall domain, custom_domain = JStr domain -> markup_free domain = true) ->
  List.length (previews page) <= 1 ->
  let after := fst (show_domain_preview custom_domain page) in
  List.length (previews after) <= 1
  /\ custom_domain_field after = custom_domain_field page
  /\ (forall domain,
        custom_domain = JStr domain -> domain <> [] ->
        custom_domain_field page = true ->
        previews after = [full_domain domain]
        /\ snd (show_domain_preview custom_domain page) = Normal tt)
  /\ (truthy custom_domain = false \/ custom_domain_field page = false ->
      previews after = []).
Proof.
  intros _ Hone. cbv zeta.
  assert (Htl : tl (previews page) = []).
  { destruct (previews page) as [|a [|b l]]; simpl in *; try reflexivity.
    lia. }
  unfold show_domain_preview. rewrite Htl.
  split; [|split; [|split]].
  - destruct (truthy custom_domain); [|simpl; lia].
    destruct custom_domain; simpl; try lia.
    destruct (custom_domain_field page); simpl; lia.
  - destruct (truthy custom_domain); [|reflexivity].
    destruct custom_domain; try reflexivity.
    destruct (custom_domain_field page); reflexivity.
  - intros domain -> Hne Hfield. destruct domain; [congruence|]. simpl.
    rewrite Hfield. split; reflexivity.
  - intros [Hf | Hf].
    + rewrite Hf. reflexivity.
    + destruct (truthy custom_domain); [|reflexivity].
      destruct custom_domain; try reflexivity.
      rewrite Hf. reflexivity.
Qed.

(** X3. The button Open Site opens the stored custom domain as it is,
    behind "https://", without the suffix that the preview adds: the
    address opened is that of the previewed full domain exactly when the
    stored value already ends with ".ibssaas.com". *)
Theorem open_site_ignores_suffix (__ : jsstring -> jsstring)
    (domain : jsstring) :
  domain <> [] ->
  open_site_callback __ (Some (Some (JStr domain)))
  = window_open (lit "https://" ++ domain) (lit "_blank")
  /\ (open_site_callback __ (Some (Some (JStr domain)))
      = window_open (lit "https://" ++ full_domain domain) (lit "_blank")
      <-> endsWith domain domain_suffix = true).
Proof.
  intros Hd.
  assert (E : open_site_callback __ (Some (Some (JStr domain)))
              = window_open (lit "https://" ++ domain) (lit "_blank")).
  { destruct domain; [congruence | reflexivity]. }
  split; [exact E|]. rewrite E. split.
  - intros [= H]. unfold full_domain in H.
    destruct (endsWith domain domain_suffix); [reflexivity|].
    exfalso. apply (app_nonempty_differs domain domain_suffix);
      [discriminate | symmetry; exact H].
  - intros H. unfold full_domain. rewrite H. reflexivity.
Qed.

End DomainPreviewFacts.

(** ** More on the suggested custom domain *)

Section SuggestionShape.

Import CustomerRequest.

Lemma span_rest_members p s c : In c (snd (span p s)) -> In c s.
Proof.
  induction s as [|a s IH]; simpl; [tauto|].
  destruct (p a); [|simpl; tauto].
  destruct (span p s) as [run rest]; simpl in *. auto.
Qed.

Lemma span_all p s : forallb p s = true -> snd (span p s) = [].
Proof.
  induction s as [|a s IH]; simpl; [reflexivity|].
  intros H. apply andb_true_iff in H. destruct H as [Ha Hs].
  rewrite Ha. specialize (IH Hs).
  destruct (span p s) as [run rest]; simpl in *. exact IH.
Qed.

(** What [replace] leaves is made of the replacement and of characters of
    the string. *)
Lemma replace_plus_members p by_ s c :
  In c (replace_plus p by_ s) -> In c by_ \/ In c s.
Proof.
  funelim (replace_plus p by_ s); intros Hin.
  - destruct Hin.
  - apply in_app_or in Hin. destruct Hin as [Hin | Hin]; [now left|].
    destruct (H _ Hin) as [Hc | Hc]; [now left|].
    right. right. now apply span_rest_members in Hc.
  - destruct Hin as [-> | Hin]; [right; now left|].
    destruct (H _ Hin) as [Hc | Hc]; [now left | right; now right].
Qed.

(** Without a character of the class nothing is replaced. *)
Lemma replace_plus_nothing p by_ s :
  forallb (fun c => negb (p c)) s = true -> replace_plus p by_ s = s.
Proof.
  rewrite replace_plus_by_blocks.
  induction s as [|c s IH]; [reflexivity|]. simpl forallb.
  intros H. apply andb_true_iff in H. destruct H as [Hc Hs].
  apply negb_true_iff in Hc.
  rewrite blocks_replace_outside by assumption. now rewrite IH.
Qed.

(** A string of the class only is one match. *)
Lemma replace_plus_everything p by_ s :
  s <> [] -> forallb p s = true -> replace_plus p by_ s = by_.
Proof.
  intros Hs Hall. rewrite replace_plus_by_blocks.
  destruct s as [|c s]; [congruence|]. simpl in Hall.
  apply andb_true_iff in Hall. destruct Hall as [Hc Hall].
  rewrite blocks_replace_in_class by assumption.
  rewrite span_all by assumption. simpl. apply app_nil_r.
Qed.

Lemma lower_kept_is_kept c : is_lower_kept c = true -> spec_is_kept c = true.
Proof.
  unfold is_lower_kept, spec_is_kept.
  destruct (in_a_z c), (in_A_Z c), (in_0_9 c), (c =? hyphen)%N;
    simpl; congruence.
Qed.

Lemma lower_kept_range c :
  is_lower_kept c = true ->
  (c = 45 \/ (48 <= c <= 57) \/ (97 <= c <= 122))%N.
Proof.
  unfold is_lower_kept, in_a_z, in_0_9, hyphen.
  rewrite !orb_true_iff, !andb_true_iff, !N.leb_le, N.eqb_eq. tauto.
Qed.

Lemma kept_range c :
  spec_is_kept c = true ->
  (c = 45 \/ (48 <= c <= 57) \/ (65 <= c <= 90) \/ (97 <= c <= 122))%N.
Proof.
  unfold spec_is_kept, in_a_z, in_A_Z, in_0_9, hyphen.
  rewrite !orb_true_iff, !andb_true_iff, !N.leb_le, N.eqb_eq. tauto.
Qed.

Lemma kept_is_no_space c : spec_is_kept c = true -> is_space c = false.
Proof.
  intros H. apply kept_range in H. unfold is_space.
  repeat (apply orb_false_intro);
    try (apply N.eqb_neq; lia).
  apply andb_false_iff. left. apply N.leb_gt. lia.
Qed.

Variable toLowerCase : jsstring -> jsstring.

Lemma suggested_domain_kept text :
  forallb spec_is_kept (suggested_domain toLowerCase text) = true.
Proof.
  unfold suggested_domain, substring_from_0, remove_class.
  apply forallb_forall. intros c Hin.
  assert (Hin' : In c (filter (fun c => negb (not_domain_char c))
                          (replace_plus is_space [hyphen]
                             (toLowerCase text)))).
  { rewrite <- (firstn_skipn 20 (filter _ _)). apply in_or_app. now left. }
  apply filter_In in Hin'. destruct Hin' as [_ H].
  unfold not_domain_char in H. now rewrite negb_involutive in H.
Qed.

Lemma suggested_domain_from_lowered text c :
  In c (suggested_domain toLowerCase text) ->
  c = hyphen \/ In c (toLowerCase text).
Proof.
  unfold suggested_domain, substring_from_0, remove_class. intros Hin.
  assert (Hin' : In c (filter (fun c => negb (not_domain_char c))
                          (replace_plus is_space [hyphen]
                             (toLowerCase text)))).
  { rewrite <- (firstn_skipn 20 (filter _ _)). apply in_or_app. now left. }
  apply filter_In in Hin'. destruct Hin' as [Hin' _].
  apply replace_plus_members in Hin'.
  destruct Hin' as [[<- | []] | Hc]; [now left | now right].
Qed.

(** X4. What the handler of [customer_name] suggests never holds a dot, so
    it never ends with ".ibssaas.com": whenever the handler sets the custom
    domain and shows the preview, the preview is of the suggestion followed
    by the suffix. *)
Theorem suggestion_is_previewed_with_suffix doc doc' calls :
  customer_name_handler toLowerCase doc = Normal (doc', calls) ->
  In show_domain_preview calls ->
  exists suggestion,
    custom_domain doc' = JStr suggestion
    /\ suggestion <> []
    /\ ~ In 46%N suggestion
    /\ DomainPreview.full_domain suggestion
       = suggestion ++ DomainPreview.domain_suffix
    /\ forall page,
         List.length (DomainPreview.previews page) <= 1 ->
         DomainPreview.custom_domain_field page = true ->
         DomainPreview.show_domain_preview (custom_domain doc') page
         = ({| DomainPreview.previews :=
                 [suggestion ++ DomainPreview.domain_suffix];
               DomainPreview.custom_domain_field := true |},
            Normal tt).
Proof.
  unfold customer_name_handler. intros Hrun Hcall.
  destruct (truthy (customer_name doc) && negb (truthy (custom_domain doc)));
    [|injection Hrun as <- <-; destruct Hcall].
  destruct (customer_name doc) as [| |b|n|text];
    try discriminate.
  pose proof (suggested_domain_kept text) as Hkept.
  destruct (suggested_domain toLowerCase text) as [|c s] eqn:Es;
    [injection Hrun as <- <-; destruct Hcall|].
  simpl in Hrun. injection Hrun as <- <-.
  assert (Hdot : ~ In 46%N (c :: s)).
  { intros Hin. rewrite forallb_forall in Hkept.
    specialize (Hkept _ Hin). discriminate. }
  assert (Hends : DomainPreview.endsWith (c :: s)
                    DomainPreview.domain_suffix = false).
  { destruct (DomainPreview.endsWith (c :: s) DomainPreview.domain_suffix)
      eqn:E; [|reflexivity].
    apply endsWith_suffix in E. destruct E as [before E].
    exfalso. apply Hdot. rewrite E. apply in_or_app. right. now left. }
  assert (Hfull : DomainPreview.full_domain (c :: s)
                  = (c :: s) ++ DomainPreview.domain_suffix).
  { unfold DomainPreview.full_domain. now rewrite Hends. }
  exists (c :: s). repeat split; try assumption; try discriminate.
  intros page Hone Hfield. unfold DomainPreview.show_domain_preview.
  cbn [custom_domain truthy]. rewrite Hfield, Hfull.
  destruct (DomainPreview.previews page) as [|a [|b l]];
    simpl in *; try reflexivity. lia.
Qed.

(** X5. A customer name that, once in lower case, is nothing but
    whitespace is one run: the suggestion is the single hyphen, and the
    handler sets the custom domain to "-". *)
Theorem blank_name_suggests_hyphen doc text :
  customer_name doc = JStr text ->
  text <> [] ->
  truthy (custom_domain doc) = false ->
  toLowerCase text <> [] ->
  forallb is_space (toLowerCase text) = true ->
  suggested_domain toLowerCase text = [hyphen]
  /\ customer_name_handler toLowerCase doc
     = Normal ({| customer_name := JStr text;
                  custom_domain := JStr [hyphen] |},
               [set_value (lit "custom_domain") [hyphen];
                show_domain_preview]).
Proof.
  intros Hname Htext Hdomain Hne Hblank.
  assert (E : suggested_domain toLowerCase text = [hyphen]).
  { unfold suggested_domain.
    rewrite replace_plus_everything by assumption. reflexivity. }
  split; [exact E|].
  unfold customer_name_handler. rewrite Hname, Hdomain, E.
  destruct text as [|c text]; [congruence | reflexivity].
Qed.

(** The case mapping leaves no ASCII capital, and leaves a string of
    lower-case ASCII letters, digits and hyphens as it is. *)
Hypothesis lower_has_no_capital :
  forall s c, In c (toLowerCase s) -> in_A_Z c = false.
Hypothesis lower_of_lower :
  forall s, forallb is_lower_kept s = true -> toLowerCase s = s.

(** X6. Every suggestion is made of lower-case ASCII letters, digits and
    hyphens only, at most 20 of them, and is its own suggestion: entering a
    suggested domain as the customer name suggests the same domain
    again. *)
Theorem suggestion_is_stable text :
  let suggestion := suggested_domain toLowerCase text in
  forallb is_lower_kept suggestion = true
  /\ List.length suggestion <= 20
  /\ suggested_domain toLowerCase suggestion = suggestion.
Proof.
  cbv zeta.
  assert (Hlow : forallb is_lower_kept (suggested_domain toLowerCase text)
                 = true).
  { apply forallb_forall. intros c Hin.
    pose proof (suggested_domain_kept text) as Hkept.
    rewrite forallb_forall in Hkept. specialize (Hkept _ Hin).
    apply suggested_domain_from_lowered in Hin.
    destruct Hin as [-> | Hin]; [reflexivity|].
    apply lower_has_no_capital in Hin.
    unfold spec_is_kept in Hkept. unfold is_lower_kept.
    rewrite Hin in Hkept. now rewrite orb_false_r in Hkept. }
  assert (Hlen : List.length (suggested_domain toLowerCase text) <= 20).
  { unfold suggested_domain, substring_from_0. apply firstn_le_length. }
  split; [exact Hlow | split; [exact Hlen|]].
  remember (suggested_domain toLowerCase text) as s eqn:Es.
  unfold suggested_domain. rewrite (lower_of_lower s Hlow).
  rewrite replace_plus_nothing.
  - unfold remove_class, substring_from_0.
    rewrite forallb_filter_id.
    + now apply firstn_all2.
    + apply forallb_forall. intros c Hin. rewrite forallb_forall in Hlow.
      unfold not_domain_char. rewrite negb_involutive.
      apply lower_kept_is_kept. now apply Hlow.
  - apply forallb_forall. intros c Hin. rewrite forallb_forall in Hlow.
    apply negb_true_iff, kept_is_no_space, lower_kept_is_kept.
    now apply Hlow.
Qed.

End SuggestionShape.

(** ** More on the progress flow *)

Section ProgressFlowFacts.

Import CustomerSite.

Variable __ : jsstring -> jsstring.

Lemma deliver_all_step data timestamp rest d :
  deliver_all __ ((data, timestamp) :: rest) d =
  (fst (deliver_all __ rest
          (dialog_of (on_site_creation_progress __ data timestamp d))),
   emitted (on_site_creation_progress __ data timestamp d)
   ++ snd (deliver_all __ rest
             (dialog_of (on_site_creation_progress __ data timestamp d)))).
Proof.
  simpl.
  destruct (deliver_all __ rest
              (dialog_of (on_site_creation_progress __ data timestamp d))).
  reflexivity.
Qed.

Lemma deliver_all_then earlier later d :
  fst (deliver_all __ (earlier ++ later) d)
  = fst (deliver_all __ later (fst (deliver_all __ earlier d))).
Proof.
  revert d. induction earlier as [|[data timestamp] earlier IH]; intros d.
  - reflexivity.
  - rewrite <- app_comm_cons, !deliver_all_step. simpl fst. apply IH.
Qed.

(** The calls of one run of the listener, by the kind of the message. *)
Lemma listener_calls data timestamp d :
  emitted (on_site_creation_progress __ data timestamp d) =
  if strict_eq (progress data) (JNum 100) then
    [reload_doc; show_alert (__ (lit "Site created successfully!")) green]
  else if is_failure_event data then
    [show_alert
       (__ (lit "Site creation failed: " ++ ToString (message data))) red]
  else [].
Proof.
  unfold is_failure_event.
  destruct (strict_eq (progress data) (JNum 100)) eqn:E100.
  - apply strict_eq_num in E100. now rewrite listener_at_100.
  - apply strict_eq_num_false in E100.
    destruct (strict_eq (progress data) (JNum 0)) eqn:E0.
    + apply strict_eq_num in E0.
      destruct (message data) eqn:Em;
        try (rewrite listener_at_0_other;
             [reflexivity | assumption | intros t; congruence]).
      rewrite (listener_at_0_string __ _ _ _ s E0 Em). simpl.
      destruct (includes s (lit "failed")); reflexivity.
    + apply strict_eq_num_false in E0. now rewrite listener_between.
Qed.

(** X7. After any messages, in any order, the bar and the status line
    show the last one received, for a progress that is an integer or is
    missing and a text that is a string or is missing: the bar has its
    progress before "%", raised to 0 when it is negative and 0 when it is
    missing, and the status line has its text, or nothing when that is
    missing.  Earlier messages, also ones with a higher progress, leave no
    trace there. *)
Theorem presenter_shows_last_message earlier data timestamp d :
  written_in_full (progress data) = true ->
  written_in_full (message data) = true ->
  let shown :=
    fst (deliver_all __ (earlier ++ [(data, timestamp)]) d) in
  (forall n, progress data = JNum n ->
             bar_width shown = ToString (JNum (Z.max 0 n)) ++ lit "%")
  /\ (truthy (progress data) = false -> bar_width shown = lit "0%")
  /\ progress_text shown = ToString (js_or (message data) (JStr [])).
Proof.
  intros _ _. cbv zeta. rewrite deliver_all_then, deliver_all_step.
  simpl fst. rewrite listener_presents. unfold presented.
  split; [|split].
  - intros n Hn. rewrite Hn. unfold js_or. simpl truthy.
    destruct (n =? 0)%Z eqn:E; [|reflexivity].
    apply Z.eqb_eq in E. subst n. reflexivity.
  - intros Hf. unfold js_or. rewrite Hf. reflexivity.
  - simpl progress_text. unfold js_or.
    destruct (message data) as [| |b|n|s]; simpl; try reflexivity.
    + destruct b; reflexivity.
    + destruct (n =? 0)%Z; reflexivity.
    + destruct s; reflexivity.
Qed.

(** X8. Over any list of messages the record is reloaded, and the green
    notification raised, once for each message with progress 100, so again
    when such a message is repeated; the red notification is raised once
    for each message with progress 0 whose text contains "failed". *)
Theorem terminal_actions_are_counted events d :
  let out := snd (deliver_all __ events d) in
  List.length (filter is_reload out)
  = List.length
      (filter (fun ev : ProgressEvent * jsstring =>
                 strict_eq (progress (fst ev)) (JNum 100)) events)
  /\ List.length (filter is_green_alert out)
     = List.length
         (filter (fun ev : ProgressEvent * jsstring =>
                    strict_eq (progress (fst ev)) (JNum 100)) events)
  /\ List.length (filter is_red_alert out)
     = List.length
         (filter (fun ev : ProgressEvent * jsstring =>
                    is_failure_event (fst ev)) events).
Proof.
  cbv zeta. revert d.
  induction events as [|[data timestamp] events IH]; intros d.
  - repeat split.
  - rewrite deliver_all_step. cbn [snd fst filter].
    rewrite !filter_app, !length_app, listener_calls.
    destruct (IH (dialog_of (on_site_creation_progress __ data timestamp d)))
      as (IHr & IHg & IHf).
    rewrite IHr, IHg, IHf.
    destruct (strict_eq (progress data) (JNum 100)) eqn:E100; simpl.
    + apply strict_eq_num in E100.
      assert (F : is_failure_event data = false)
        by (unfold is_failure_event; rewrite E100; reflexivity).
      rewrite F. repeat split.
    + destruct (is_failure_event data); simpl; repeat split.
Qed.

(** X9. The listener throws in one case only: the progress is 0 and the
    message has no text (it is missing, or not a string).  It has then
    updated the presenter and made no call; in every other case it
    returns. *)
Theorem listener_throws_only_without_text data timestamp d :
  let r := on_site_creation_progress __ data timestamp d in
  (completion r = Throw TypeError <->
   progress data = JNum 0 /\ forall text, message data <> JStr text)
  /\ (completion r = Throw TypeError ->
      emitted r = [] /\ dialog_of r = presented data timestamp d)
  /\ (completion r <> Throw TypeError -> completion r = Normal tt).
Proof.
  cbv zeta.
  destruct (strict_eq (progress data) (JNum 100)) eqn:E100.
  - apply strict_eq_num in E100. rewrite listener_at_100 by assumption.
    unfold completion, emitted, dialog_of; simpl.
    repeat split; try discriminate.
    intros [Hp _]. congruence.
  - apply strict_eq_num_false in E100.
    destruct (strict_eq (progress data) (JNum 0)) eqn:E0.
    + apply strict_eq_num in E0.
      destruct (message data) as [| |b|n|s] eqn:Em;
        try (rewrite listener_at_0_other;
             [ unfold completion, emitted, dialog_of; simpl;
               repeat split; try reflexivity; try assumption;
               try (intros t; discriminate); try congruence
             | assumption | intros t; congruence]).
      rewrite (listener_at_0_string __ _ _ _ s E0 Em).
      unfold completion, emitted, dialog_of; simpl.
      repeat split; try discriminate.
      intros [_ Hno]. now destruct (Hno s).
    + apply strict_eq_num_false in E0.
      rewrite listener_between by assumption.
      unfold completion, emitted, dialog_of; simpl.
      repeat split; try discriminate. intros [Hp _]. congruence.
Qed.

(** *** What the listener, the callback and the checks never do *)

Lemma listener_asks_nothing data timestamp d :
  existsb is_confirm (emitted (on_site_creation_progress __ data timestamp d))
  = false
  /\ existsb is_call (emitted (on_site_creation_progress __ data timestamp d))
     = false.
Proof.
  rewrite listener_calls.
  destruct (strict_eq (progress data) (JNum 100)); [split; reflexivity|].
  destruct (is_failure_event data); split; reflexivity.
Qed.

Lemma callback_asks_nothing r_message timestamp d :
  existsb is_confirm (emitted (create_site_callback __ r_message timestamp d))
  = false
  /\ existsb is_call (emitted (create_site_callback __ r_message timestamp d))
     = false.
Proof.
  unfold create_site_callback. destruct r_message as [reply|];
    [|split; reflexivity].
  destruct (truthy (success reply)); split; reflexivity.
Qed.

(** The prompt is asked only after the three checks, and the checks make no
    call. *)
Lemma checks_before_prompt doc :
  existsb is_call (create_site_with_progress __ doc) = false
  /\ (existsb is_confirm (create_site_with_progress __ doc) = true ->
      truthy (custom_domain doc) = true
      /\ truthy (instance doc) = true
      /\ truthy (package doc) = true).
Proof.
  unfold create_site_with_progress.
  destruct (truthy (custom_domain doc)); [|split; [reflexivity|discriminate]].
  destruct (truthy (instance doc)); [|split; [reflexivity|discriminate]].
  destruct (truthy (package doc)); [|split; [reflexivity|discriminate]].
  repeat split.
Qed.

End ProgressFlowFacts.

(** ** The table of site actions *)

Section SiteActionsFacts.

Import InstanceAction.

Lemma strict_eq_same (a b : JsVal) : strict_eq a b = true <-> a = b.
Proof.
  destruct a, b; simpl; split; try congruence; try reflexivity.
  - intros H. apply Bool.eqb_prop in H. congruence.
  - intros [= ->]. apply Bool.eqb_reflx.
  - intros H. apply Z.eqb_eq in H. congruence.
  - intros [= ->]. apply Z.eqb_refl.
  - intros H. apply jsstring_eqb_eq in H. congruence.
  - intros [= ->]. now apply jsstring_eqb_eq.
Qed.

Lemma row_of_name s : Row.site_name (row_of s) = Site.site_name s.
Proof.
  unfold row_of. destruct (truthy (Site.customer_site s)); reflexivity.
Qed.

Lemma existing_row_named rows s :
  existing_row rows s = true <->
  In (Site.site_name s) (map Row.site_name rows).
Proof.
  unfold existing_row. rewrite existsb_exists, in_map_iff. split.
  - intros (row & Hin & Heq). apply strict_eq_same in Heq. now exists row.
  - intros (row & Heq & Hin). exists row. split; [exact Hin|].
    now apply strict_eq_same.
Qed.

Lemma existing_row_none rows s :
  existing_row rows s = false <->
  ~ In (Site.site_name s) (map Row.site_name rows).
Proof.
  rewrite <- existing_row_named.
  destruct (existing_row rows s); split; congruence.
Qed.

Lemma add_sites_next s sites rows :
  fold_left add_site (s :: sites) rows =
  fold_left add_site sites
    (if existing_row rows s then rows else rows ++ [row_of s]).
Proof. reflexivity. Qed.

(** The table grows by first occurrences only. *)
Lemma add_sites_names sites rows :
  NoDup (map Row.site_name rows) ->
  NoDup (map Row.site_name (fold_left add_site sites rows))
  /\ (forall v, In v (map Row.site_name (fold_left add_site sites rows)) <->
                In v (map Row.site_name rows)
                \/ In v (map Site.site_name sites)).
Proof.
  revert rows. induction sites as [|s sites IH]; intros rows Hnd.
  - simpl. split; [exact Hnd | intros v; tauto].
  - rewrite add_sites_next. destruct (existing_row rows s) eqn:E.
    + destruct (IH rows Hnd) as [Hn Hin]. split; [exact Hn|].
      intros v. rewrite Hin. apply existing_row_named in E. simpl.
      split; [tauto|]. intros [H | [<- | H]]; tauto.
    + apply existing_row_none in E.
      assert (Hnd' : NoDup (map Row.site_name (rows ++ [row_of s]))).
      { rewrite map_app. simpl. rewrite row_of_name.
        apply NoDup_app; [exact Hnd | |].
        - constructor; [simpl; tauto | constructor].
        - intros a Ha [<- | []]. tauto. }
      destruct (IH _ Hnd') as [Hn Hin]. split; [exact Hn|].
      intros v. rewrite Hin, map_app, in_app_iff. simpl.
      rewrite row_of_name. tauto.
Qed.

Lemma add_sites_length sites rows :
  List.length (fold_left add_site sites rows)
  <= List.length rows + List.length sites.
Proof.
  revert rows. induction sites as [|s sites IH]; intros rows;
    [simpl; lia|].
  rewrite add_sites_next. destruct (existing_row rows s).
  - specialize (IH rows). simpl. lia.
  - specialize (IH (rows ++ [row_of s])). rewrite length_app in IH.
    simpl in *. lia.
Qed.

Lemma add_sites_all_new sites rows :
  List.length (fold_left add_site sites rows)
  = List.length rows + List.length sites
  <-> NoDup (map Site.site_name sites)
      /\ forall v, In v (map Site.site_name sites) ->
                   ~ In v (map Row.site_name rows).
Proof.
  revert rows. induction sites as [|s sites IH]; intros rows.
  - simpl. split; [intros _; split; [constructor | tauto] | lia].
  - rewrite add_sites_next. destruct (existing_row rows s) eqn:E.
    + apply existing_row_named in E. split.
      * intros H. pose proof (add_sites_length sites rows).
        simpl in H. lia.
      * intros [_ H]. exfalso.
        apply (H (Site.site_name s)); [now left | exact E].
    + apply existing_row_none in E.
      assert (L : List.length rows + List.length (s :: sites)
                  = List.length (rows ++ [row_of s]) + List.length sites)
        by (rewrite length_app; simpl; lia).
      rewrite L, IH, map_app. simpl. rewrite row_of_name. split.
      * intros [Hnd Hnew]. split.
        -- constructor; [|exact Hnd]. intros Hin.
           apply (Hnew _ Hin). apply in_or_app. right. now left.
        -- intros v [<- | Hin]; [exact E|]. intros Hrow.
           apply (Hnew _ Hin). apply in_or_app. now left.
      * intros [Hnd Hnew]. inversion Hnd as [|x l Hhead Htail]; subst.
        split; [exact Htail|].
        intros v Hin Hrow. apply in_app_or in Hrow.
        destruct Hrow as [Hrow | [<- | []]].
        -- apply (Hnew v); [now right | exact Hrow].
        -- exact (Hhead Hin).
Qed.

(** Every row of the table comes from the first site of its name. *)
Lemma add_sites_rows sites rows row :
  In row (fold_left add_site sites rows) ->
  In row rows
  \/ exists before s after,
       sites = before ++ s :: after
       /\ row = row_of s
       /\ ~ In (Site.site_name s) (map Site.site_name before)
       /\ ~ In (Site.site_name s) (map Row.site_name rows).
Proof.
  revert rows. induction sites as [|s sites IH]; intros rows Hin.
  - now left.
  - rewrite add_sites_next in Hin. destruct (existing_row rows s) eqn:E.
    + apply existing_row_named in E.
      destruct (IH _ Hin)
        as [H | (before & s' & after & -> & Hrow & Hnew & Hfresh)];
        [now left|].
      right. exists (s :: before), s', after.
      split; [reflexivity | split; [exact Hrow | split; [|exact Hfresh]]].
      intros [Heq | Hb]; [|exact (Hnew Hb)].
      apply Hfresh. now rewrite <- Heq.
    + apply existing_row_none in E.
      destruct (IH _ Hin)
        as [H | (before & s' & after & -> & Hrow & Hnew & Hfresh)].
      * apply in_app_or in H. destruct H as [H | [<- | []]]; [now left|].
        right. exists [], s, sites.
        split; [reflexivity | split; [reflexivity | split; [|exact E]]].
        intros [].
      * rewrite map_app, in_app_iff in Hfresh. simpl in Hfresh.
        rewrite row_of_name in Hfresh.
        right. exists (s :: before), s', after.
        split; [reflexivity | split; [exact Hrow | split]].
        -- intros [Heq | Hb]; [|exact (Hnew Hb)]. apply Hfresh. right.
           now left.
        -- intros Hr. apply Hfresh. now left.
Qed.

(** X11. The table that Refresh Sites, and the handler of [instance],
    build from a non-empty list of sites holds every site name received,
    each once, and no other: the rows that were there before are gone, and
    a name that comes several times gives one row. *)
Theorem site_table_has_each_name_once sites site_actions :
  sites <> [] ->
  let table := fst (on_instance_sites (Some sites) site_actions) in
  NoDup (map Row.site_name table)
  /\ (forall v, In v (map Row.site_name table) <->
                In v (map Site.site_name sites))
  /\ List.length table <= List.length sites.
Proof.
  intros Hne. cbv zeta.
  destruct sites as [|s sites]; [congruence|]. cbn [on_instance_sites fst].
  destruct (add_sites_names (s :: sites) []) as [Hnd Hin]; [constructor|].
  split; [exact Hnd | split].
  - intros v. rewrite Hin. simpl. tauto.
  - pose proof (add_sites_length (s :: sites) []). simpl in *. lia.
Qed.

(** X12. The alert raised after the save tells the number of sites
    received, not the number of rows saved: the two agree exactly when the
    names received are pairwise different. *)
Theorem found_count_is_of_received_sites sites site_actions :
  sites <> [] ->
  let result := on_instance_sites (Some sites) site_actions in
  snd result =
    [clear_table (lit "site_actions");
     refresh_field (lit "site_actions");
     save_then_alert
       (lit "Found " ++ Z_to_jsstring (Z.of_nat (List.length sites))
        ++ lit " sites on the server and saved to Instance Action")
       (lit "green")]
  /\ (List.length (fst result) = List.length sites
      <-> NoDup (map Site.site_name sites)).
Proof.
  intros Hne. cbv zeta.
  destruct sites as [|s sites]; [congruence|].
  split; [reflexivity|]. cbn [on_instance_sites fst].
  rewrite (add_sites_all_new (s :: sites) []). simpl. tauto.
Qed.

(** X13. Each row of the rebuilt table is made from the first site
    received under its name: it has that name, the action "Start Site",
    and the link to the Customer Site of that first site when it has one,
    no link otherwise.  Sites that come later under the same name are
    skipped with whatever they carry. *)
Theorem site_rows_come_from_first_sites sites site_actions row :
  sites <> [] ->
  In row (fst (on_instance_sites (Some sites) site_actions)) ->
  Row.action row = JStr (lit "Start Site")
  /\ exists before s after,
       sites = before ++ s :: after
       /\ ~ In (Site.site_name s) (map Site.site_name before)
       /\ Row.site_name row = Site.site_name s
       /\ Row.site row =
          (if truthy (Site.customer_site s) then Site.customer_site s
           else JUndefined).
Proof.
  intros Hne Hin. destruct sites as [|s0 sites]; [congruence|].
  cbn [on_instance_sites fst] in Hin.
  apply add_sites_rows in Hin.
  destruct Hin as [[] | (before & s & after & E & -> & Hnew & _)].
  split.
  - unfold row_of. destruct (truthy (Site.customer_site s)); reflexivity.
  - exists before, s, after.
    split; [exact E | split; [exact Hnew | split]].
    + apply row_of_name.
    + unfold row_of. destruct (truthy (Site.customer_site s)); reflexivity.
Qed.

End SiteActionsFacts.

(** ** Texts and icons of the action types *)

Section ActionTypeFacts.

Import InstanceAction.

Lemma own_property_none entries key :
  own_property entries key = None <-> ~ In key (map fst entries).
Proof.
  induction entries as [|[k v] entries IH]; simpl; [tauto|].
  destruct (jsstring_eqb k key) eqn:E.
  - apply jsstring_eqb_eq in E. split; [discriminate | tauto].
  - rewrite IH. split; [|tauto]. intros H [Hk | Hin]; [|tauto].
    apply jsstring_eqb_eq in Hk. congruence.
Qed.

Lemma own_property_value entries key v :
  own_property entries key = Some v -> In v (map snd entries).
Proof.
  induction entries as [|[k w] entries IH]; simpl; [discriminate|].
  destruct (jsstring_eqb k key); [intros [= ->]; now left | auto].
Qed.

Lemma lookup_or_own entries key fallback v :
  Forall (fun w : jsstring => w <> [] /\ w <> fallback) (map snd entries) ->
  own_property entries (ToString key) = Some v ->
  lookup_or entries key fallback = text v /\ v <> [] /\ v <> fallback.
Proof.
  intros Hall Hown. unfold lookup_or. rewrite Hown.
  apply own_property_value in Hown. rewrite Forall_forall in Hall.
  destruct (Hall _ Hown) as [Hne Hfb].
  destruct v; [congruence|]. repeat split; congruence.
Qed.

Lemma action_details_texts :
  Forall (fun w : jsstring => w <> [] /\ w <> custom_action)
         (map snd action_details).
Proof.
  repeat constructor; discriminate.
Qed.

Lemma action_icons_texts :
  Forall (fun w : jsstring => w <> [] /\ w <> lit "gear")
         (map snd action_icons).
Proof.
  repeat constructor; discriminate.
Qed.

Lemma same_action_types : map fst action_details = map fst action_icons.
Proof. reflexivity. Qed.

(** X14. The form and the list view know the same action types: an action
    type gets the general description "Custom action to be performed on
    the instance" exactly when it gets the general icon "gear", and a type
    with a description of its own has an icon of its own.  Neither the
    description nor the icon is ever the empty text. *)
Theorem action_details_and_icon_agree (action_type : JsVal) :
  (get_action_details action_type = text custom_action
   <-> action_icon action_type = text (lit "gear"))
  /\ (forall name, get_action_details action_type = inherited name
                   <-> action_icon action_type = inherited name)
  /\ get_action_details action_type <> text []
  /\ action_icon action_type <> text [].
Proof.
  unfold get_action_details, action_icon.
  destruct (own_property action_details (ToString action_type)) as [v|] eqn:Ed.
  - destruct (own_property action_icons (ToString action_type)) as [w|] eqn:Ei.
    + destruct (lookup_or_own _ _ _ _ action_details_texts Ed)
        as (-> & Hv & Hvd).
      destruct (lookup_or_own _ _ _ _ action_icons_texts Ei)
        as (-> & Hw & Hwd).
      repeat split; try congruence; intros H; discriminate.
    + exfalso. apply own_property_none in Ei. apply Ei.
      rewrite <- same_action_types.
      destruct (in_dec (list_eq_dec N.eq_dec) (ToString action_type)
                       (map fst action_details)) as [Hin | Hout];
        [exact Hin|].
      apply own_property_none in Hout. congruence.
  - assert (Ei : own_property action_icons (ToString action_type) = None).
    { apply own_property_none. rewrite <- same_action_types.
      now apply own_property_none. }
    unfold lookup_or. rewrite Ed, Ei.
    destruct (existsb (jsstring_eqb (ToString action_type))
                      object_prototype_names).
    + repeat split; try discriminate; intros [= ->]; reflexivity.
    + repeat split; try discriminate; intros H; reflexivity.
Qed.

End ActionTypeFacts.

(** ** What a start call needs *)

Section LaunchFlowFacts.

Import LaunchFlow.

Variable __ : jsstring -> jsstring.

Ltac same_inputs :=
  repeat (rewrite <- app_assoc || rewrite <- app_comm_cons); reflexivity.

Lemma doc_after_then doc0 h i :
  doc_after doc0 (h ++ [i]) =
  match i with
  | edit doc' => doc'
  | _ => doc_after doc0 h
  end.
Proof.
  revert doc0. induction h as [|j h IH]; intros doc0.
  - destruct i; reflexivity.
  - destruct j; simpl; apply IH.
Qed.

Lemma refreshed_then doc0 h i : refreshed doc0 h -> refreshed doc0 (h ++ [i]).
Proof.
  intros (a & b & -> & Ha). exists a, (b ++ [i]).
  split; [same_inputs | exact Ha].
Qed.

Lemma asked_then doc0 h i : asked doc0 h -> asked doc0 (h ++ [i]).
Proof.
  intros (a & b & c & -> & Ha & Hb). exists a, b, (c ++ [i]).
  split; [same_inputs | split; assumption].
Qed.

Lemma consented_then doc0 h i :
  consented doc0 h -> consented doc0 (h ++ [i]).
Proof.
  intros (a & b & c & e & -> & Ha & Hb). exists a, b, c, (e ++ [i]).
  split; [same_inputs | split; assumption].
Qed.

Lemma step_reached doc0 h f i f' :
  reached doc0 h f ->
  step __ f i = Some f' ->
  reached doc0 (h ++ [i]) f'.
Proof.
  intros (Hdoc & Hbutton & Hprompt & Hcall) Hstep.
  destruct i as [|doc'| |yes]; simpl in Hstep.
  - injection Hstep as <-. unfold reached. simpl.
    rewrite doc_after_then. split; [exact Hdoc | split; [|split]].
    + intros Hb. apply orb_true_iff in Hb. destruct Hb as [Hb | Hb].
      * apply refreshed_then. now apply Hbutton.
      * exists h, []. split; [reflexivity|].
        unfold is_active. rewrite <- Hdoc.
        now apply strict_eq_same.
    + intros Hp. apply asked_then. now apply Hprompt.
    + intros Hc. apply consented_then. now apply Hcall.
  - injection Hstep as <-. unfold reached. simpl.
    rewrite doc_after_then. split; [reflexivity | split; [|split]].
    + intros Hb. apply refreshed_then. now apply Hbutton.
    + intros Hp. apply asked_then. now apply Hprompt.
    + intros Hc. apply consented_then. now apply Hcall.
  - destruct (button f) eqn:Hb; [|discriminate]. injection Hstep as <-.
    destruct (checks_before_prompt __ (doc f)) as [Hno Hask].
    unfold reached. simpl. rewrite doc_after_then.
    split; [exact Hdoc | split; [|split]].
    + intros _. apply refreshed_then. now apply Hbutton.
    + intros Hp.
      destruct (existsb is_confirm
                  (CustomerSite.create_site_with_progress __ (doc f)))
        eqn:Hconfirm.
      * destruct (Hbutton eq_refl) as (a & b & Eh & Ha).
        exists a, b, []. split; [rewrite Eh; same_inputs|].
        split; [exact Ha|]. rewrite <- Eh, <- Hdoc. now apply Hask.
      * apply asked_then. apply Hprompt. lia.
    + rewrite existsb_app, Hno, orb_false_r.
      intros Hc. apply consented_then. now apply Hcall.
  - destruct (prompts f) as [|waiting] eqn:Hp; [discriminate|].
    injection Hstep as <-. unfold reached. simpl.
    rewrite doc_after_then.
    assert (Hasked : asked doc0 h) by (apply Hprompt; lia).
    split; [exact Hdoc | split; [|split]].
    + intros Hb. apply refreshed_then. now apply Hbutton.
    + intros _. now apply asked_then.
    + destruct yes.
      * intros _. destruct Hasked as (a & b & c & Eh & Ha & Hf).
        exists a, b, c, []. split; [rewrite Eh; same_inputs|].
        split; assumption.
      * intros Hc. apply consented_then. now apply Hcall.
Qed.

Lemma run_reached doc0 inputs h f f' :
  reached doc0 h f ->
  run __ f inputs = Some f' ->
  reached doc0 (h ++ inputs) f'.
Proof.
  revert h f. induction inputs as [|i inputs IH]; intros h f Hr Hrun.
  - injection Hrun as <-. now rewrite app_nil_r.
  - simpl in Hrun. destruct (step __ f i) as [g|] eqn:Hstep; [|discriminate].
    replace (h ++ i :: inputs) with ((h ++ [i]) ++ inputs)
      by (rewrite <- app_assoc; reflexivity).
    apply (IH _ g); [|exact Hrun].
    exact (step_reached doc0 h f i g Hr Hstep).
Qed.

(** X10. In any sequence of refreshes of the form, changes of the record,
    clicks on Create Site and answers to the prompt, a start call is made
    only after a refresh at which the status was Active, then a click at
    which the custom domain, the instance and the package were all set,
    then a yes to the prompt.  The status is looked at by the refresh
    alone: the record may have another status by the time of the call. *)
Theorem start_call_needs_button_fields_and_consent doc0 inputs f :
  run __ (fresh doc0) inputs = Some f ->
  existsb is_call (trace f) = true ->
  exists a b c e,
    inputs = a ++ refresh :: b ++ click :: c ++ answer true :: e
    /\ CustomerSite.status (doc_after doc0 a) = JStr (lit "Active")
    /\ truthy (CustomerSite.custom_domain
                 (doc_after doc0 (a ++ refresh :: b))) = true
    /\ truthy (CustomerSite.instance
                 (doc_after doc0 (a ++ refresh :: b))) = true
    /\ truthy (CustomerSite.package
                 (doc_after doc0 (a ++ refresh :: b))) = true.
Proof.
  intros Hrun Hcall.
  assert (Hstart : reached doc0 [] (fresh doc0)).
  { unfold reached. simpl. split; [reflexivity|].
    split; [discriminate | split; [lia | discriminate]]. }
  destruct (run_reached doc0 inputs [] _ f Hstart Hrun)
    as (_ & _ & _ & Hyes).
  destruct (Hyes Hcall) as (a & b & c & e & E & Ha & Hf).
  exists a, b, c, e. split; [exact E | split; [exact Ha | exact Hf]].
Qed.

End LaunchFlowFacts.

(** ** The further properties at concrete inputs *)

Module ConcreteMore.

Lemma ascii_lower_has_no_capital s c :
  In c (CustomerRequest.ascii_toLowerCase s) ->
  CustomerRequest.in_A_Z c = false.
Proof.
  unfold CustomerRequest.ascii_toLowerCase. rewrite in_map_iff.
  intros (a & <- & _). unfold CustomerRequest.in_A_Z.
  destruct (N.leb_spec 65 a); destruct (N.leb_spec a 90); simpl;
    apply andb_false_iff;
    try (right; apply N.leb_gt; lia); left; apply N.leb_gt; lia.
Qed.

Lemma ascii_lower_of_lower s :
  forallb is_lower_kept s = true -> CustomerRequest.ascii_toLowerCase s = s.
Proof.
  unfold CustomerRequest.ascii_toLowerCase. intros H.
  rewrite <- (map_id s) at 2. apply map_ext_in. intros c Hin.
  rewrite forallb_forall in H. specialize (H _ Hin).
  apply lower_kept_range in H. unfold CustomerRequest.in_A_Z.
  replace ((65 <=? c)%N && (c <=? 90)%N) with false; [reflexivity|].
  symmetry. apply andb_false_iff.
  destruct H as [-> | [H | H]];
    [left; reflexivity | left; apply N.leb_gt; lia
    | right; apply N.leb_gt; lia].
Qed.

Lemma preview_is_replaced_witness :
  markup_free (lit "acme") = true
  /\ List.length (DomainPreview.previews page_with_preview) <= 1
  /\ DomainPreview.previews
       (fst (DomainPreview.show_domain_preview (JStr (lit "acme"))
               page_with_preview))
     = [lit "acme.ibssaas.com"].
Proof.
  assert (M : forall domain,
            JStr (lit "acme") = JStr domain -> markup_free domain = true)
    by (intros domain [= <-]; reflexivity).
  assert (H : List.length (DomainPreview.previews page_with_preview) <= 1)
    by (simpl; lia).
  split; [reflexivity | split; [exact H|]].
  destruct (preview_is_replaced (JStr (lit "acme")) page_with_preview M H)
    as (_ & _ & Hshown & _).
  destruct (Hshown (lit "acme") eq_refl) as [E _];
    [discriminate | reflexivity | exact E].
Defined.

Lemma open_site_ignores_suffix_witness :
  lit "acme" <> []
  /\ DomainPreview.open_site_callback untranslated
       (Some (Some (JStr (lit "acme"))))
     = DomainPreview.window_open (lit "https://acme") (lit "_blank").
Proof.
  assert (H : lit "acme" <> []) by discriminate.
  split; [exact H|].
  exact (proj1 (open_site_ignores_suffix untranslated (lit "acme") H)).
Defined.

Lemma suggestion_is_previewed_with_suffix_witness :
  exists doc' calls,
    CustomerRequest.customer_name_handler CustomerRequest.ascii_toLowerCase
      CustomerRequest.acme_request = Normal (doc', calls)
    /\ In show_domain_preview calls
    /\ DomainPreview.show_domain_preview
         (CustomerRequest.custom_domain doc') page_with_preview
       = ({| DomainPreview.previews := [lit "acme-corp-inc-holdin.ibssaas.com"];
             DomainPreview.custom_domain_field := true |},
          Normal tt).
Proof.
  eexists. eexists.
  assert (Hrun : CustomerRequest.customer_name_handler
                   CustomerRequest.ascii_toLowerCase
                   CustomerRequest.acme_request
                 = Normal
                     ({| CustomerRequest.customer_name :=
                           JStr (lit "Acme  Corp, Inc. (Holdings) Limited");
                         CustomerRequest.custom_domain :=
                           JStr (lit "acme-corp-inc-holdin") |},
                      [set_value (lit "custom_domain")
                                 (lit "acme-corp-inc-holdin");
                       show_domain_preview])) by reflexivity.
  split; [exact Hrun|].
  assert (Hcall : In show_domain_preview
                    [set_value (lit "custom_domain")
                               (lit "acme-corp-inc-holdin");
                     show_domain_preview]) by (right; left; reflexivity).
  split; [exact Hcall|].
  destruct (suggestion_is_previewed_with_suffix
              CustomerRequest.ascii_toLowerCase _ _ _ Hrun Hcall)
    as (suggestion & Hs & _ & _ & _ & Hpage).
  injection Hs as <-.
  apply Hpage; [simpl; lia | reflexivity].
Defined.

Lemma blank_name_suggests_hyphen_witness :
  CustomerRequest.customer_name blank_request = JStr (lit "   ")
  /\ lit "   " <> []
  /\ truthy (CustomerRequest.custom_domain blank_request) = false
  /\ forallb CustomerRequest.is_space
       (CustomerRequest.ascii_toLowerCase (lit "   ")) = true
  /\ CustomerRequest.suggested_domain CustomerRequest.ascii_toLowerCase
       (lit "   ") = lit "-".
Proof.
  assert (Hne : lit "   " <> []) by discriminate.
  assert (Hlow : CustomerRequest.ascii_toLowerCase (lit "   ") <> [])
    by discriminate.
  split; [reflexivity | split; [exact Hne | split; [reflexivity|]]].
  split; [reflexivity|].
  exact (proj1 (blank_name_suggests_hyphen CustomerRequest.ascii_toLowerCase
                  blank_request (lit "   ") eq_refl Hne eq_refl Hlow
                  eq_refl)).
Defined.

Lemma suggestion_is_stable_witness :
  CustomerRequest.suggested_domain CustomerRequest.ascii_toLowerCase
    (CustomerRequest.suggested_domain CustomerRequest.ascii_toLowerCase
       (lit "Acme  Corp, Inc. (Holdings) Limited"))
  = CustomerRequest.suggested_domain CustomerRequest.ascii_toLowerCase
      (lit "Acme  Corp, Inc. (Holdings) Limited").
Proof.
  exact (proj2 (proj2 (suggestion_is_stable
                         CustomerRequest.ascii_toLowerCase
                         ascii_lower_has_no_capital ascii_lower_of_lower
                         (lit "Acme  Corp, Inc. (Holdings) Limited")))).
Defined.

Lemma listener_throws_only_without_text_witness :
  CustomerSite.progress
    {| CustomerSite.progress := JNum 0; CustomerSite.message := JNull |}
  = JNum 0
  /\ completion
       (CustomerSite.on_site_creation_progress untranslated
          {| CustomerSite.progress := JNum 0;
             CustomerSite.message := JNull |}
          (lit "10:00:01") new_dialog)
     = Throw TypeError.
Proof.
  split; [reflexivity|].
  apply (proj1 (listener_throws_only_without_text untranslated
                  {| CustomerSite.progress := JNum 0;
                     CustomerSite.message := JNull |}
                  (lit "10:00:01") new_dialog)).
  split; [reflexivity | intros text; discriminate].
Defined.

Lemma presenter_shows_last_message_witness :
  let data := {| CustomerSite.progress := JNum (-5);
                 CustomerSite.message := JStr (lit "rolling back") |} in
  let shown :=
    fst (CustomerSite.deliver_all untranslated
           (CustomerSite.retry_then_done ++ [(data, lit "10:05:00")])
           new_dialog) in
  written_in_full (CustomerSite.progress data) = true
  /\ written_in_full (CustomerSite.message data) = true
  /\ bar_width shown = lit "0%"
  /\ progress_text shown = lit "rolling back".
Proof.
  cbv zeta.
  destruct (presenter_shows_last_message untranslated
              CustomerSite.retry_then_done
              {| CustomerSite.progress := JNum (-5);
                 CustomerSite.message := JStr (lit "rolling back") |}
              (lit "10:05:00") new_dialog eq_refl eq_refl)
    as (Hbar & _ & Htext).
  split; [reflexivity | split; [reflexivity | split]].
  - exact (Hbar (-5)%Z eq_refl).
  - exact Htext.
Defined.

Lemma start_call_needs_button_fields_and_consent_witness :
  exists f,
    LaunchFlow.run untranslated (LaunchFlow.fresh CustomerSite.acme_site)
      LaunchFlow.edited_launch = Some f
    /\ existsb is_call (LaunchFlow.trace f) = true
    /\ exists a b c e,
         LaunchFlow.edited_launch
         = a ++ LaunchFlow.refresh :: b ++ LaunchFlow.click :: c
           ++ LaunchFlow.answer true :: e
         /\ CustomerSite.status
              (LaunchFlow.doc_after CustomerSite.acme_site a)
            = JStr (lit "Active").
Proof.
  destruct (LaunchFlow.run untranslated
              (LaunchFlow.fresh CustomerSite.acme_site)
              LaunchFlow.edited_launch) as [f|] eqn:E;
    [|vm_compute in E; discriminate].
  exists f. split; [reflexivity|].
  assert (C : existsb is_call (LaunchFlow.trace f) = true).
  { vm_compute in E. injection E as <-. reflexivity. }
  split; [exact C|].
  destruct (start_call_needs_button_fields_and_consent untranslated
              CustomerSite.acme_site LaunchFlow.edited_launch f E C)
    as (a & b & c & e & Hin & Ha & _).
  exists a, b, c, e. split; [exact Hin | exact Ha].
Defined.

Example call_goes_out_for_a_suspended_record :
  option_map
    (fun f => (CustomerSite.status (LaunchFlow.doc f),
               List.length (filter is_call (LaunchFlow.trace f))))
    (LaunchFlow.run untranslated (LaunchFlow.fresh CustomerSite.acme_site)
       LaunchFlow.edited_launch)
  = Some (JStr (lit "Suspended"), 2).
Proof. reflexivity. Qed.

Lemma site_table_has_each_name_once_witness :
  sites_with_repeat <> []
  /\ map InstanceAction.Row.site_name
       (fst (InstanceAction.on_instance_sites (Some sites_with_repeat) []))
     = [JStr (lit "acme.example.com"); JStr (lit "beta.example.com")]
  /\ NoDup (map InstanceAction.Row.site_name
              (fst (InstanceAction.on_instance_sites
                      (Some sites_with_repeat) []))).
Proof.
  assert (H : sites_with_repeat <> []) by discriminate.
  split; [exact H | split; [reflexivity|]].
  exact (proj1 (site_table_has_each_name_once sites_with_repeat [] H)).
Defined.

Lemma found_count_is_of_received_sites_witness :
  sites_with_repeat <> []
  /\ snd (InstanceAction.on_instance_sites (Some sites_with_repeat) [])
     = [InstanceAction.clear_table (lit "site_actions");
        InstanceAction.refresh_field (lit "site_actions");
        InstanceAction.save_then_alert
          (lit "Found 3 sites on the server and saved to Instance Action")
          (lit "green")]
  /\ List.length
       (fst (InstanceAction.on_instance_sites (Some sites_with_repeat) []))
     = 2.
Proof.
  assert (H : sites_with_repeat <> []) by discriminate.
  split; [exact H|].
  split; [|reflexivity].
  exact (proj1 (found_count_is_of_received_sites sites_with_repeat [] H)).
Defined.

Lemma site_rows_come_from_first_sites_witness :
  let row := {| InstanceAction.Row.site := JStr (lit "SITE-0001");
                InstanceAction.Row.site_name :=
                  JStr (lit "acme.example.com");
                InstanceAction.Row.action := JStr (lit "Start Site") |} in
  sites_with_repeat <> []
  /\ In row (fst (InstanceAction.on_instance_sites
                    (Some sites_with_repeat) []))
  /\ InstanceAction.Row.action row = JStr (lit "Start Site").
Proof.
  cbv zeta.
  assert (H : sites_with_repeat <> []) by discriminate.
  assert (Hin : In {| InstanceAction.Row.site := JStr (lit "SITE-0001");
                      InstanceAction.Row.site_name :=
                        JStr (lit "acme.example.com");
                      InstanceAction.Row.action := JStr (lit "Start Site") |}
                   (fst (InstanceAction.on_instance_sites
                           (Some sites_with_repeat) [])))
    by (left; reflexivity).
  split; [exact H | split; [exact Hin|]].
  exact (proj1 (site_rows_come_from_first_sites sites_with_repeat [] _
                  H Hin)).
Defined.

Example repeated_site_keeps_first_link :
  map InstanceAction.Row.site
      (fst (InstanceAction.on_instance_sites (Some sites_with_repeat) []))
  = [JStr (lit "SITE-0001"); JUndefined].
Proof. reflexivity. Qed.

Example constructor_is_inherited :
  InstanceAction.get_action_details (JStr (lit "constructor"))
  = InstanceAction.inherited (lit "constructor").
Proof. reflexivity. Qed.

Example padded_name_keeps_hyphens :
  CustomerRequest.suggested_domain CustomerRequest.ascii_toLowerCase
    (lit " Acme - Corp ") = lit "-acme---corp-".
Proof. reflexivity. Qed.

End ConcreteMore.
